(** * Daylight lookup table: a shallow embedding of [Lookup_Table_for_Day_Light.py]

    The script computes the hours of daylight at a latitude on a date from a
    seven-term series for the solar declination, and tabulates it for every
    day of a year.

    Number model.  A Python/NumPy [float] is idealised as a real number: the
    arithmetic of the script is carried out in [R] with the Standard
    Library's [sin], [cos], [acos] and [PI].  The one operation of the script
    that leaves the finite numbers on finite inputs is the division in
    [calculate_daylight]; its result is an [npfloat], a real number or one of
    the IEEE-754 values [inf], [-inf], [nan] that NumPy returns for a zero
    divisor.  The trigonometric part is exact: what is stated of it keeps a
    margin that the rounding of binary64 does not reach, or is stated for the
    exact quotient only.  The minutes of [fmt_hours] depend on the last bit
    of a product, so there the two operations are rounded to binary64
    ([round64]). *)

From Stdlib Require Import Reals Lra Lia ZArith List String Ascii Bool.
From Stdlib Require Import Zfloor DecimalString Machin.
Import ListNotations.

Open Scope Z_scope.

(** ** Outcomes of Python calls *)

Inductive pyexn : Type :=
| ValueError
| OverflowError.

(** A call returns a value or raises; [Unfinished] is the answer of the loop
    model when its step budget runs out before the loop condition fails. *)
Inductive outcome (A : Type) : Type :=
| Returned (a : A)
| Raised (e : pyexn)
| Unfinished.

Arguments Returned {A} a.
Arguments Raised {A} e.
Arguments Unfinished {A}.

Definition obind {A B : Type} (m : outcome A) (k : A -> outcome B) : outcome B :=
  match m with
  | Returned a => k a
  | Raised e => Raised e
  | Unfinished => Unfinished
  end.

Declare Scope py_scope.
Delimit Scope py_scope with py.
Notation "x <- m ;; k" := (obind m (fun x => k))
  (at level 61, m at next level, right associativity) : py_scope.
Notation "' pat <- m ;; k" := (obind m (fun x => match x with pat => k end))
  (at level 61, pat pattern, m at next level, right associativity) : py_scope.

(** ** [datetime.date] *)

Module Calendar.

Record date : Type := mkdate { year : Z; month : Z; day : Z }.

Definition MINYEAR : Z := 1.
Definition MAXYEAR : Z := 9999.

(** [_is_leap]: year -> 1 if leap year, else 0. *)
Definition is_leap (y : Z) : bool :=
  (y mod 4 =? 0) && (negb (y mod 100 =? 0) || (y mod 400 =? 0)).

(** [_days_in_month]: the table [-1, 31, 28, 31, ...] with February of a leap
    year patched to 29. *)
Definition days_in_month (y m : Z) : Z :=
  match m with
  | 1 => 31 | 2 => if is_leap y then 29 else 28 | 3 => 31 | 4 => 30
  | 5 => 31 | 6 => 30 | 7 => 31 | 8 => 31
  | 9 => 30 | 10 => 31 | 11 => 30 | 12 => 31
  | _ => 0
  end.

(** [_days_before_month]: number of days in the year preceding the first day
    of the month; the table plus one after February of a leap year. *)
Definition days_before_month (y m : Z) : Z :=
  match m with
  | 1 => 0 | 2 => 31 | 3 => 59 | 4 => 90
  | 5 => 120 | 6 => 151 | 7 => 181 | 8 => 212
  | 9 => 243 | 10 => 273 | 11 => 304 | 12 => 334
  | _ => 0
  end + (if (2 <? m) && is_leap y then 1 else 0).

Definition days_in_year (y : Z) : Z := if is_leap y then 366 else 365.

(** The fields of every [date] object satisfy this check
    ([_check_date_fields]). *)
Definition valid_dateb (d : date) : bool :=
  (MINYEAR <=? year d) && (year d <=? MAXYEAR) &&
  (1 <=? month d) && (month d <=? 12) &&
  (1 <=? day d) && (day d <=? days_in_month (year d) (month d)).

Definition valid_date (d : date) : Prop := valid_dateb d = true.

(** The arguments of [date(year, month, day)] are read as C [int]s. *)
Definition fits_c_int (z : Z) : bool :=
  (-2147483648 <=? z) && (z <=? 2147483647).

(** [date(year, month, day)]: the constructor raises [OverflowError] on an
    argument that does not fit a C [int], and [ValueError] on fields out of
    range. *)
Definition date_new (y m dd : Z) : outcome date :=
  if fits_c_int y && fits_c_int m && fits_c_int dd then
    if valid_dateb (mkdate y m dd) then Returned (mkdate y m dd)
    else Raised ValueError
  else Raised OverflowError.

(** [d1 < d2] compares (year, month, day) lexicographically. *)
Definition date_ltb (a b : date) : bool :=
  (year a <? year b) ||
  ((year a =? year b) &&
   ((month a <? month b) || ((month a =? month b) && (day a <? day b)))).

(** [d + timedelta(days=1)]: the next day of the proleptic Gregorian
    calendar; [OverflowError] past 9999-12-31 ("date value out of range"). *)
Definition add_one_day (d : date) : outcome date :=
  if day d <? days_in_month (year d) (month d)
  then Returned (mkdate (year d) (month d) (day d + 1))
  else if month d <? 12
  then Returned (mkdate (year d) (month d + 1) 1)
  else if year d <? MAXYEAR
  then Returned (mkdate (year d + 1) 1 1)
  else Raised OverflowError.

(** [tm_yday] of [d.timetuple()]: 1 for January 1st. *)
Definition yday (d : date) : Z := days_before_month (year d) (month d) + day d.

Definition digit_char (k : Z) : ascii := ascii_of_nat (48 + Z.to_nat k).

(** [d.strftime("%j")]: the day of the year as three decimal digits,
    ["001"] .. ["366"]. *)
Definition strftime_j (d : date) : string :=
  let n := yday d in
  String (digit_char (n / 100))
    (String (digit_char (n / 10 mod 10))
       (String (digit_char (n mod 10)) EmptyString)).

Definition digit_value (c : ascii) : option Z :=
  let k := Z.of_nat (nat_of_ascii c) in
  if (48 <=? k) && (k <=? 57) then Some (k - 48) else None.

Fixpoint parse_digits (acc : Z) (s : string) : outcome Z :=
  match s with
  | EmptyString => Returned acc
  | String c rest =>
      match digit_value c with
      | Some k => parse_digits (10 * acc + k) rest
      | None => Raised ValueError
      end
  end.

(** [int(s)] on a string of decimal digits; [ValueError] on anything else. *)
Definition int_of_str (s : string) : outcome Z :=
  match s with
  | EmptyString => Raised ValueError
  | _ => parse_digits 0 s
  end.

End Calendar.

Import Calendar.

(** [day_of_year]: ["%j"] gives the day of the year as a zero-padded string,
    which [int] reads back. *)
Definition day_of_year (d : date) : outcome Z := int_of_str (strftime_j d).

(** ** NumPy scalars *)

Module NumPy.

Local Open Scope R_scope.

Inductive npfloat : Type :=
| Finite (r : R)
| PosInf
| NegInf
| NaN.

(** [np.deg2rad] and [np.rad2deg] on a finite number. *)
Definition deg2rad (x : R) : R := x * (PI / 180).
Definition rad2deg (x : R) : R := x * (180 / PI).

(** [x / y] of two finite [np.float64]: a zero divisor gives [inf], [-inf] or
    [nan] (with a warning), not an exception.  The zero divisor is taken with
    the sign of [+0.0]; the binary64 cosine vanishes nowhere, so this branch
    is met only where the exact denominator is zero, and the statements
    about [calculate_daylight] do not tell the two infinities apart. *)
Definition np_div (x y : R) : npfloat :=
  if Req_dec_T y 0 then
    if Rlt_dec 0 x then PosInf
    else if Rlt_dec x 0 then NegInf
    else NaN
  else Finite (x / y).

(** [x <= c] and [x >= c] against a finite constant; every comparison with
    [nan] is false. *)
Definition np_le (x : npfloat) (c : R) : bool :=
  match x with
  | Finite r => if Rle_dec r c then true else false
  | NegInf => true
  | PosInf | NaN => false
  end.

Definition np_ge (x : npfloat) (c : R) : bool :=
  match x with
  | Finite r => if Rle_dec c r then true else false
  | PosInf => true
  | NegInf | NaN => false
  end.

(** [np.arccos]: [nan] outside [-1, 1]. *)
Definition np_arccos (x : npfloat) : npfloat :=
  match x with
  | Finite r =>
      if Rle_dec (-1) r then if Rle_dec r 1 then Finite (acos r) else NaN
      else NaN
  | _ => NaN
  end.

(** Multiplication by a positive finite constant. *)
Definition np_scale (k : R) (x : npfloat) : npfloat :=
  match x with
  | Finite r => Finite (k * r)
  | other => other
  end.

Definition np_rad2deg (x : npfloat) : npfloat :=
  match x with
  | Finite r => Finite (rad2deg r)
  | other => other
  end.

(** Division by a positive finite constant. *)
Definition np_div_const (x : npfloat) (k : R) : npfloat :=
  match x with
  | Finite r => Finite (r / k)
  | other => other
  end.

(** [np.round] on a finite number: to the nearest integer, ties to even. *)
Definition np_round (r : R) : Z :=
  let f := Zfloor r in
  if Rlt_dec (r - IZR f) (1 / 2) then f
  else if Rlt_dec (1 / 2) (r - IZR f) then (f + 1)%Z
  else if Z.even f then f else (f + 1)%Z.

(** Rounding to binary64, for a magnitude below 2^1024: the nearest multiple
    of the unit in the last place, a tie going to the even multiple.  The
    unit is [2^(e - 52)] in the binade [2^e <= |x| < 2^(e + 1)] and
    [2^(-1074)] below [2^(-1022)]. *)
Definition binade (x : R) : Z :=
  if Req_dec_T x 0 then (-1022)%Z
  else Z.max (-1022) (Zfloor (ln (Rabs x) / ln 2)).

Definition ulp (x : R) : R := powerRZ 2 (binade x - 52).

Definition round64 (x : R) : R := IZR (np_round (x / ulp x)) * ulp x.

(** [int(x)] on a float: truncation toward zero; [ValueError] on [nan],
    [OverflowError] on an infinity. *)
Definition int_of_float (x : npfloat) : outcome Z :=
  match x with
  | Finite r => Returned (if Rle_dec 0 r then Zfloor r else Zceil r)
  | PosInf | NegInf => Raised OverflowError
  | NaN => Raised ValueError
  end.

End NumPy.

Import NumPy.

(** ** The script *)

Inductive condition : Type :=
| NormalDay
| PolarDay
| PolarNight.

Definition condition_label (c : condition) : string :=
  match c with
  | NormalDay => "Normal Day"
  | PolarDay => "Polar Day"
  | PolarNight => "Polar Night"
  end.

Open Scope R_scope.

(** The series of [solar_declination_rad] in the day angle [gamma]. *)
Definition declination_series (gamma : R) : R :=
  0.006918
  - 0.399912 * cos gamma
  + 0.070257 * sin gamma
  - 0.006758 * cos (2 * gamma)
  + 0.000907 * sin (2 * gamma)
  - 0.002697 * cos (3 * gamma)
  + 0.001480 * sin (3 * gamma).

(** [gamma = 2.0 * np.pi * (n - 1) / 365.0] *)
Definition day_angle (n : Z) : R := 2 * PI * IZR (n - 1) / 365.

Definition solar_declination_rad (d : date) : outcome R :=
  (n <- day_of_year d ;;
   let gamma := day_angle n in
   Returned (declination_series gamma))%py.

(** The numerator and the denominator of [cos_H0]. *)
Definition cos_H0_num (phi delta h0 : R) : R := sin h0 - sin phi * sin delta.
Definition cos_H0_den (phi delta : R) : R := cos phi * cos delta.

Definition calculate_daylight (lat_deg : R) (d : date)
  : outcome (npfloat * condition) :=
  (let phi := deg2rad lat_deg in
   delta <- solar_declination_rad d ;;
   let h0 := deg2rad (-0.833) in
   let cos_H0 := np_div (cos_H0_num phi delta h0) (cos_H0_den phi delta) in
   if np_le cos_H0 (-1) then Returned (Finite 24, PolarDay)
   else if np_ge cos_H0 1 then Returned (Finite 0, PolarNight)
   else
     let H0 := np_arccos cos_H0 in
     let daylight_hours := np_div_const (np_scale 2 (np_rad2deg H0)) 15 in
     Returned (daylight_hours, NormalDay))%py.

Definition str_of_int (z : Z) : string := NilZero.string_of_int (Z.to_int z).

(** [(hours - h) * 60] on floats: the difference and the product are each
    rounded to binary64. *)
Definition minute_fraction (hours : R) (h : Z) : R :=
  round64 (round64 (hours - IZR h) * 60).

Definition fmt_hours (hours : npfloat) : outcome string :=
  (h <- int_of_float hours ;;
   m <- match hours with
        | Finite r => Returned (np_round (minute_fraction r h))
        | _ => Raised ValueError
        end ;;
   let '(h, m) := if (m =? 60)%Z then ((h + 1)%Z, 0%Z) else (h, m) in
   Returned (str_of_int h ++ "h " ++ str_of_int m ++ "m")%string)%py.

(** One data row of the table, before the cells are rendered as text
    ([isoformat], [:.4f]); the rendering and the file belong to the
    [csv] writer. *)
Record table_row : Type := mkrow {
  row_date : date;
  row_doy : Z;
  row_declination_deg : R;
  row_daylight_hours : npfloat;
  row_condition : condition
}.

Inductive csv_line : Type :=
| HeaderLine (cols : list string)
| DataLine (r : table_row).

(** The rows written so far, oldest first, and the outcome of the call. *)
Definition writer (A : Type) : Type := list csv_line -> outcome A * list csv_line.

Definition wret {A : Type} (a : A) : writer A := fun f => (Returned a, f).

Definition wbind {A B : Type} (m : writer A) (k : A -> writer B) : writer B :=
  fun f =>
    match m f with
    | (Returned a, f') => k a f'
    | (Raised e, f') => (Raised e, f')
    | (Unfinished, f') => (Unfinished, f')
    end.

Definition wlift {A : Type} (m : outcome A) : writer A := fun f => (m, f).

Definition writerow (l : csv_line) : writer unit :=
  fun f => (Returned tt, f ++ [l])%list.

Declare Scope writer_scope.
Delimit Scope writer_scope with writer.
Notation "x <- m ;; k" := (wbind m (fun x => k))
  (at level 61, m at next level, right associativity) : writer_scope.
Notation "' pat <- m ;; k" := (wbind m (fun x => match x with pat => k end))
  (at level 61, pat pattern, m at next level, right associativity) : writer_scope.
Notation "m ;;; k" := (wbind m (fun _ => k))
  (at level 61, right associativity) : writer_scope.

Definition header : csv_line :=
  HeaderLine ["date"; "doy"; "declination_deg"; "daylight_hours"; "condition"]%string.

(** The body of [while d < end]: one row for [d], then the next day. *)
Definition table_step (lat_deg : R) (d : date) : writer date :=
  ('(hours, cond) <- wlift (calculate_daylight lat_deg d) ;;
   decl <- wlift (solar_declination_rad d) ;;
   let decl_deg := rad2deg decl in
   doy <- wlift (day_of_year d) ;;
   writerow (DataLine (mkrow d doy decl_deg hours cond)) ;;;
   wlift (add_one_day d))%writer.

Fixpoint table_loop (fuel : nat) (lat_deg : R) (d end_ : date) : writer unit :=
  match fuel with
  | O => wlift Unfinished
  | S fuel' =>
      if date_ltb d end_ then
        (d' <- table_step lat_deg d ;; table_loop fuel' lat_deg d' end_)%writer
      else wret tt
  end.

(** [generate_lookup_table], run on an empty file with a budget of [fuel]
    evaluations of the loop condition. *)
Definition generate_lookup_table (fuel : nat) (lat_deg : R) (year : Z)
  : outcome unit * list csv_line :=
  (writerow header ;;;
   d <- wlift (date_new year 1 1) ;;
   end_ <- wlift (date_new (year + 1) 1 1) ;;
   table_loop fuel lat_deg d end_)%writer [].

(** ** Certified bounds on the declination

    Integer bounds, in units of [1 / scale], on the cosine and sine of the
    multiples of [eta = PI / 365] in the first quadrant, obtained by
    rotating the bounds of the previous multiple; from them, bounds on the
    declination series for each day of the year. *)

Module Interval.

Local Open Scope Z_scope.

(** Bounds are integers counting units of [1 / scale]. *)
Definition scale : Z := 1000000000000.

(** Lower and upper bounds on [scale * cos x] and [scale * sin x]. *)
Record bounds : Type := mkbounds {
  cos_lo : Z; cos_hi : Z; sin_lo : Z; sin_hi : Z
}.

(** Bounds at [PI / 365], from the Taylor polynomials of degree 4 and 5
    and 3.1415926 < PI < 3.1415927. *)
Definition eta_bounds : bounds :=
  mkbounds 999962958886 999962959118 8606996741 8606997016.

(** Products of two non-negative quantities, rounded down and up. *)
Definition mul_down (x y : Z) : Z := (Z.max 0 x * Z.max 0 y) / scale.
Definition mul_up (x y : Z) : Z := x * y / scale + 1.

(** From bounds at [x] to bounds at [x + PI / 365], by the addition
    formulas, for [x] in the first quadrant. *)
Definition rotate (b : bounds) : bounds :=
  let e := eta_bounds in
  mkbounds
    (mul_down (cos_lo b) (cos_lo e) - mul_up (sin_hi b) (sin_hi e))
    (mul_up (cos_hi b) (cos_hi e) - mul_down (sin_lo b) (sin_lo e))
    (mul_down (sin_lo b) (cos_lo e) + mul_down (cos_lo b) (sin_lo e))
    (mul_up (sin_hi b) (cos_hi e) + mul_up (cos_hi b) (sin_hi e)).

Fixpoint table_from (b : bounds) (n : nat) : list bounds :=
  match n with
  | O => []
  | S k => b :: table_from (rotate b) k
  end.

(** Entry [a] bounds the angle [a * PI / 365], for [a] from 0 to 182. *)
Definition quadrant_table : list bounds :=
  table_from (mkbounds scale scale 0 0) 183.

Definition whole_range : bounds := mkbounds (- scale) scale (- scale) scale.

Definition entry (t : list bounds) (a : Z) : bounds :=
  nth (Z.to_nat a) t whole_range.

Definition flip_cos (b : bounds) : bounds :=
  mkbounds (- cos_hi b) (- cos_lo b) (sin_lo b) (sin_hi b).

Definition flip_sin (b : bounds) : bounds :=
  mkbounds (cos_lo b) (cos_hi b) (- sin_hi b) (- sin_lo b).

(** Bounds at the angle [2 * PI * k / 365]: [k] is reduced modulo 365 and
    the angle folded into the first quadrant. *)
Definition turn_bounds (t : list bounds) (k : Z) : bounds :=
  let r := k mod 365 in
  if 4 * r <=? 365 then entry t (2 * r)
  else if 4 * r <=? 730 then flip_cos (entry t (365 - 2 * r))
  else if 4 * r <=? 1095 then flip_cos (flip_sin (entry t (2 * r - 365)))
  else flip_sin (entry t (730 - 2 * r)).

(** Bounds on [1000000 * scale] times the declination series on day [n];
    the coefficients are those of [declination_series] in millionths. *)
Definition declination_lo (t : list bounds) (n : Z) : Z :=
  let b1 := turn_bounds t (n - 1) in
  let b2 := turn_bounds t (2 * (n - 1)) in
  let b3 := turn_bounds t (3 * (n - 1)) in
  6918 * scale
  - 399912 * cos_hi b1 + 70257 * sin_lo b1
  - 6758 * cos_hi b2 + 907 * sin_lo b2
  - 2697 * cos_hi b3 + 1480 * sin_lo b3.

Definition declination_hi (t : list bounds) (n : Z) : Z :=
  let b1 := turn_bounds t (n - 1) in
  let b2 := turn_bounds t (2 * (n - 1)) in
  let b3 := turn_bounds t (3 * (n - 1)) in
  6918 * scale
  - 399912 * cos_lo b1 + 70257 * sin_hi b1
  - 6758 * cos_lo b2 + 907 * sin_hi b2
  - 2697 * cos_lo b3 + 1480 * sin_hi b3.

(** The days of the year, 1 to 366. *)
Definition year_days : list Z := map Z.of_nat (seq 1 366).

(** The declination of day [n] lies between -0.40887 and 0.40938. *)
Definition range_ok (t : list bounds) (n : Z) : bool :=
  (-408870 * scale <=? declination_lo t n) &&
  (declination_hi t n <=? 409380 * scale).

(** Bounds on [1000000 * scale] times 0.833 degrees in radians. *)
Definition horizon_lo : Z := 14538592421111111.
Definition horizon_hi : Z := 14538592883888889.

(** The declination of day [n] is neither 0.833 degrees nor its opposite. *)
Definition off_horizon (t : list bounds) (n : Z) : bool :=
  (declination_hi t n <? - horizon_hi) ||
  ((- horizon_lo <? declination_lo t n) && (declination_hi t n <? horizon_lo)) ||
  (horizon_hi <? declination_lo t n).

Definition all_days (p : list bounds -> Z -> bool) : bool :=
  let t := quadrant_table in forallb (p t) year_days.

(** The declination of day [n] is positive from day 81 to day 266 and
    negative on the other days. *)
Definition season_ok (t : list bounds) (n : Z) : bool :=
  if (81 <=? n) && (n <=? 266) then 0 <? declination_lo t n
  else declination_hi t n <? 0.

(** From day [n] to day [n + 1] the declination rises before day 173 and
    from day 356 on, and falls in between. *)
Definition trend_ok (t : list bounds) (n : Z) : bool :=
  if 366 <=? n then true
  else if (173 <=? n) && (n <? 356)
       then declination_hi t (n + 1) <? declination_lo t n
       else declination_hi t n <? declination_lo t (n + 1).

End Interval.

Import Interval.

(** The angle step of the table. *)
Definition eta : R := PI / 365.

(** [b] encloses the cosine and the sine of [x]. *)
Definition sound (x : R) (b : bounds) : Prop :=
  IZR (cos_lo b) <= IZR scale * cos x <= IZR (cos_hi b) /\
  IZR (sin_lo b) <= IZR scale * sin x <= IZR (sin_hi b).

(** The angle of [k] 365ths of a turn. *)
Definition turn (k : Z) : R := 2 * PI * IZR k / 365.

(** ** Vocabulary of the statements *)

(** [r] is the row of day number [n] of year [y] at latitude [lat_deg]: its
    date is that day, and its cells are what [day_of_year],
    [solar_declination_rad] (in degrees) and [calculate_daylight] return for
    that date. *)
Definition row_of_day (lat_deg : R) (y n : Z) (r : table_row) : Prop :=
  valid_date (row_date r) /\
  year (row_date r) = y /\
  yday (row_date r) = n /\
  day_of_year (row_date r) = Returned (row_doy r) /\
  calculate_daylight lat_deg (row_date r)
  = Returned (row_daylight_hours r, row_condition r) /\
  exists delta : R,
    solar_declination_rad (row_date r) = Returned delta /\
    row_declination_deg r = rad2deg delta.

(** * Properties *)

(** ** The calendar *)

Lemma month_cases (m : Z) :
  (1 <= m <= 12 ->
   m = 1 \/ m = 2 \/ m = 3 \/ m = 4 \/ m = 5 \/ m = 6 \/
   m = 7 \/ m = 8 \/ m = 9 \/ m = 10 \/ m = 11 \/ m = 12)%Z.
Proof. lia. Qed.

Ltac each_month H :=
  destruct (month_cases _ H) as
    [-> | [-> | [-> | [-> | [-> | [-> | [-> | [-> | [-> | [-> | [-> | ->]]]]]]]]]]].

Ltac month_simpl :=
  cbv beta iota in *;
  cbn [Z.ltb Z.leb Z.eqb Z.compare Pos.compare Pos.compare_cont Pos.eqb
       andb orb negb] in *;
  cbv beta iota in *.

Ltac closed_succ :=
  repeat match goal with
         | |- context [(Z.pos ?p + 1)%Z] =>
             let v := eval vm_compute in (Z.pos p + 1)%Z in
             change (Z.pos p + 1)%Z with v
         end.

Section CalendarFacts.

Open Scope Z_scope.

Lemma valid_date_fields (d : date) :
  valid_date d ->
  1 <= year d <= 9999 /\ 1 <= month d <= 12 /\
  1 <= day d <= days_in_month (year d) (month d).
Proof.
  unfold valid_date, valid_dateb, MINYEAR, MAXYEAR.
  rewrite !andb_true_iff, !Z.leb_le. lia.
Qed.

Lemma yday_range (d : date) :
  valid_date d -> 1 <= yday d <= days_in_year (year d).
Proof.
  intros V. destruct (valid_date_fields d V) as (_ & Hm & Hd).
  unfold yday, days_in_year, days_before_month, days_in_month in *.
  destruct d as [y m dd]; cbn [year month day] in *.
  each_month Hm; destruct (is_leap y); month_simpl; lia.
Qed.

Lemma digit_value_char (k : Z) :
  0 <= k <= 9 -> digit_value (digit_char k) = Some k.
Proof.
  intros H.
  assert (E : k = 0 \/ k = 1 \/ k = 2 \/ k = 3 \/ k = 4 \/
              k = 5 \/ k = 6 \/ k = 7 \/ k = 8 \/ k = 9) by lia.
  destruct E as [-> | [-> | [-> | [-> | [-> | [-> | [-> | [-> | [-> | ->]]]]]]]]];
    reflexivity.
Qed.

Lemma int_of_three_digits (n : Z) :
  0 <= n <= 999 ->
  int_of_str
    (String (digit_char (n / 100))
       (String (digit_char (n / 10 mod 10))
          (String (digit_char (n mod 10)) EmptyString))) = Returned n.
Proof.
  intros H. unfold int_of_str, parse_digits.
  assert (H1 : 0 <= n / 100 <= 9) by (Z.div_mod_to_equations; lia).
  assert (H2 : 0 <= n / 10 mod 10 <= 9) by (Z.div_mod_to_equations; lia).
  assert (H3 : 0 <= n mod 10 <= 9) by (Z.div_mod_to_equations; lia).
  rewrite !digit_value_char by assumption.
  f_equal. Z.div_mod_to_equations; lia.
Qed.

Lemma day_of_year_yday (d : date) :
  valid_date d -> day_of_year d = Returned (yday d).
Proof.
  intros V. unfold day_of_year, strftime_j.
  apply int_of_three_digits.
  pose proof (yday_range d V) as R. unfold days_in_year in R.
  destruct (is_leap (year d)); lia.
Qed.

End CalendarFacts.

(** ** The declination series *)

Section Declination.

Open Scope R_scope.

Lemma solar_declination_rad_yday (d : date) :
  valid_date d ->
  solar_declination_rad d = Returned (declination_series (day_angle (yday d))).
Proof.
  intros V. unfold solar_declination_rad.
  rewrite (day_of_year_yday d V). reflexivity.
Qed.

Lemma cos_turns (x : R) (k : nat) (y : R) :
  y = x + 2 * INR k * PI -> cos y = cos x.
Proof. intros ->. apply cos_period. Qed.

Lemma sin_turns (x : R) (k : nat) (y : R) :
  y = x + 2 * INR k * PI -> sin y = sin x.
Proof. intros ->. apply sin_period. Qed.

Lemma declination_series_abs (gamma : R) :
  Rabs (declination_series gamma) <= 0.488929.
Proof.
  unfold declination_series.
  pose proof (COS_bound gamma). pose proof (SIN_bound gamma).
  pose proof (COS_bound (2 * gamma)). pose proof (SIN_bound (2 * gamma)).
  pose proof (COS_bound (3 * gamma)). pose proof (SIN_bound (3 * gamma)).
  apply Rabs_le. lra.
Qed.

Lemma Rabs_le_both (x b : R) : Rabs x <= b -> - b <= x <= b.
Proof. unfold Rabs. destruct (Rcase_abs x); lra. Qed.

Lemma cos_pos_of_abs (x : R) : Rabs x <= 0.488929 -> 0 < cos x.
Proof.
  intros H. apply Rabs_le_both in H.
  pose proof PI2_1.
  apply cos_gt_0; lra.
Qed.

End Declination.

(** ** Bounds on the declination of each day *)

Section DeclinationBounds.

Open Scope R_scope.

Lemma PI_lower : 3.1415926 < PI.
Proof.
  pose proof (PI_2_3_7_ineq 3) as [L _].
  unfold sum_f_R0, tg_alt, PI_2_3_7_tg, Ratan_seq in L.
  simpl in L. lra.
Qed.

Lemma PI_upper : PI < 3.1415927.
Proof.
  pose proof (PI_2_3_7_ineq 3) as [_ U].
  unfold sum_f_R0, tg_alt, PI_2_3_7_tg, Ratan_seq in U.
  simpl in U. lra.
Qed.

Lemma scale_pos : 0 < IZR scale.
Proof. unfold scale. lra. Qed.

Lemma div_scale_floor (z : Z) :
  IZR (z / scale) <= IZR z / IZR scale < IZR (z / scale) + 1.
Proof.
  pose proof scale_pos as P.
  assert (S0 : (0 < scale)%Z) by reflexivity.
  pose proof (Z.mul_div_le z scale S0) as L.
  pose proof (Z.mul_succ_div_gt z scale S0) as U.
  apply IZR_le in L. apply IZR_lt in U.
  rewrite mult_IZR in L. rewrite mult_IZR, succ_IZR in U.
  split.
  - apply Rmult_le_reg_l with (IZR scale); [exact P |].
    replace (IZR scale * (IZR z / IZR scale)) with (IZR z) by (field; lra). exact L.
  - apply Rmult_lt_reg_l with (IZR scale); [exact P |].
    replace (IZR scale * (IZR z / IZR scale)) with (IZR z) by (field; lra). exact U.
Qed.

Lemma mul_down_le (x y : Z) (X Y : R) :
  0 <= X -> 0 <= Y -> IZR x <= X -> IZR y <= Y ->
  IZR (mul_down x y) <= X * Y / IZR scale.
Proof.
  intros HX HY Hx Hy. unfold mul_down.
  pose proof scale_pos as P.
  pose proof (div_scale_floor (Z.max 0 x * Z.max 0 y)) as [F _].
  rewrite mult_IZR in F.
  assert (Ax : 0 <= IZR (Z.max 0 x) <= X).
  { destruct (Z.max_spec 0 x) as [[H ->] | [_ ->]]; [| lra].
    split; [apply IZR_le; lia | lra]. }
  assert (Ay : 0 <= IZR (Z.max 0 y) <= Y).
  { destruct (Z.max_spec 0 y) as [[H ->] | [_ ->]]; [| lra].
    split; [apply IZR_le; lia | lra]. }
  eapply Rle_trans; [exact F |].
  unfold Rdiv. apply Rmult_le_compat_r; [left; apply Rinv_0_lt_compat, P |].
  apply Rmult_le_compat; lra.
Qed.

Lemma mul_up_ge (x y : Z) (X Y : R) :
  0 <= X <= IZR x -> 0 <= Y <= IZR y ->
  X * Y / IZR scale <= IZR (mul_up x y).
Proof.
  intros HX HY. unfold mul_up.
  pose proof scale_pos as P.
  pose proof (div_scale_floor (x * y)) as [_ F].
  rewrite mult_IZR in F. rewrite plus_IZR.
  eapply Rle_trans; [| left; exact F].
  unfold Rdiv. apply Rmult_le_compat_r; [left; apply Rinv_0_lt_compat, P |].
  apply Rmult_le_compat; lra.
Qed.

Lemma eta_range : 3.1415926 / 365 < eta < 3.1415927 / 365.
Proof. unfold eta. pose proof PI_lower. pose proof PI_upper. lra. Qed.

Lemma eta_sound : sound eta eta_bounds.
Proof.
  pose proof eta_range as [L U].
  pose proof PI_lower as PL.
  assert (B1 : - PI / 2 <= eta) by (unfold eta; lra).
  assert (B2 : eta <= PI / 2) by (unfold eta; lra).
  pose proof (cos_bound eta 0 B1 B2) as [CL CU].
  assert (B3 : 0 <= eta) by lra.
  assert (B4 : eta <= PI) by (unfold eta; lra).
  pose proof (sin_bound eta 0 B3 B4) as [SL SU].
  unfold cos_approx, cos_term, sin_approx, sin_term in *. simpl in *.
  set (e := eta) in *.
  assert (E2l : (3.1415926 / 365) * (3.1415926 / 365) <= e * e) by (apply Rmult_le_compat; lra).
  assert (E2u : e * e <= (3.1415927 / 365) * (3.1415927 / 365)) by (apply Rmult_le_compat; lra).
  set (e2 := e * e) in *.
  assert (E3l : (3.1415926 / 365) * ((3.1415926 / 365) * (3.1415926 / 365)) <= e * e2) by (apply Rmult_le_compat; lra).
  assert (E3u : e * e2 <= (3.1415927 / 365) * ((3.1415927 / 365) * (3.1415927 / 365))) by (apply Rmult_le_compat; lra).
  assert (E4u : e2 * e2 <= ((3.1415927 / 365) * (3.1415927 / 365)) * ((3.1415927 / 365) * (3.1415927 / 365))) by (apply Rmult_le_compat; lra).
  assert (E5u : e * (e2 * e2) <= 3.1415927 / 365 * (((3.1415927 / 365) * (3.1415927 / 365)) * ((3.1415927 / 365) * (3.1415927 / 365)))) by (apply Rmult_le_compat; try lra; apply Rmult_le_pos; lra).
  unfold sound, eta_bounds, scale; cbn [cos_lo cos_hi sin_lo sin_hi].
  replace (e * (e * (e * (e * 1)))) with (e2 * e2) in * by (unfold e2; ring).
  replace (e * (e * 1)) with e2 in * by (unfold e2; ring).
  replace (e * (e * (e * 1))) with (e * e2) in * by (unfold e2; ring).
  replace (e * (e * (e * (e * (e * 1))))) with (e * (e2 * e2)) in * by (unfold e2; ring).
  set (e4 := e2 * e2) in *. set (e3 := e * e2) in *. set (e5 := e * e4) in *.
  repeat split; lra.
Qed.

Lemma rotate_sound (x : R) (b : bounds) :
  0 <= cos x -> 0 <= sin x -> sound x b -> sound (x + eta) (rotate b).
Proof.
  intros Hc Hs [[Cl Ch] [Sl Sh]].
  destruct eta_sound as [[C1l C1h] [S1l S1h]].
  pose proof scale_pos as P.
  assert (Hc1 : 0 <= cos eta).
  { unfold eta_bounds in C1l; cbn in C1l. unfold scale in *. nra. }
  assert (Hs1 : 0 <= sin eta).
  { unfold eta_bounds in S1l; cbn in S1l. unfold scale in *. nra. }
  set (K := IZR scale) in *.
  assert (PC : 0 <= K * cos x) by (apply Rmult_le_pos; lra).
  assert (PS : 0 <= K * sin x) by (apply Rmult_le_pos; lra).
  assert (PC1 : 0 <= K * cos eta) by (apply Rmult_le_pos; lra).
  assert (PS1 : 0 <= K * sin eta) by (apply Rmult_le_pos; lra).
  pose proof (mul_down_le _ _ _ _ PC PC1 Cl C1l) as D1.
  pose proof (mul_down_le _ _ _ _ PS PS1 Sl S1l) as D2.
  pose proof (mul_down_le _ _ _ _ PS PC1 Sl C1l) as D3.
  pose proof (mul_down_le _ _ _ _ PC PS1 Cl S1l) as D4.
  pose proof (mul_up_ge _ _ _ _ (conj PC Ch) (conj PC1 C1h)) as U1.
  pose proof (mul_up_ge _ _ _ _ (conj PS Sh) (conj PS1 S1h)) as U2.
  pose proof (mul_up_ge _ _ _ _ (conj PS Sh) (conj PC1 C1h)) as U3.
  pose proof (mul_up_ge _ _ _ _ (conj PC Ch) (conj PS1 S1h)) as U4.
  fold K in D1, D2, D3, D4, U1, U2, U3, U4.
  replace (K * cos x * (K * cos eta) / K) with (K * (cos x * cos eta)) in * by (field; lra).
  replace (K * sin x * (K * sin eta) / K) with (K * (sin x * sin eta)) in * by (field; lra).
  replace (K * sin x * (K * cos eta) / K) with (K * (sin x * cos eta)) in * by (field; lra).
  replace (K * cos x * (K * sin eta) / K) with (K * (cos x * sin eta)) in * by (field; lra).
  unfold sound, rotate. cbn [cos_lo cos_hi sin_lo sin_hi].
  rewrite cos_plus, sin_plus, !minus_IZR, !plus_IZR. fold K.
  repeat split; lra.
Qed.

Lemma quadrant_nonneg (i : nat) :
  (i <= 182)%nat -> 0 <= cos (INR i * eta) /\ 0 <= sin (INR i * eta).
Proof.
  intros H. pose proof PI_RGT_0 as P.
  assert (I0 : 0 <= INR i) by apply pos_INR.
  assert (I1 : INR i <= 182).
  { replace 182 with (INR 182) by (simpl; lra). apply le_INR, H. }
  assert (A : 0 <= INR i * eta <= PI / 2).
  { unfold eta. split.
    - apply Rmult_le_pos; [exact I0 | lra].
    - apply Rle_trans with (182 * (PI / 365)); [| lra].
      apply Rmult_le_compat_r; lra. }
  split.
  - apply cos_ge_0; lra.
  - apply sin_ge_0; lra.
Qed.

Lemma table_from_sound (n : nat) :
  forall (b : bounds) (a i : nat),
    sound (INR a * eta) b -> (a + n <= 183)%nat -> (i < n)%nat ->
    sound (INR (a + i) * eta) (nth i (table_from b n) whole_range).
Proof.
  induction n as [| n IH]; intros b a i Hb Ha Hi; [lia |].
  destruct i as [| i]; cbn [table_from nth].
  - rewrite Nat.add_0_r. exact Hb.
  - replace (a + S i)%nat with (S a + i)%nat by lia.
    apply IH; try lia.
    rewrite S_INR, Rmult_plus_distr_r, Rmult_1_l.
    destruct (quadrant_nonneg a) as [Hc Hs]; [lia |].
    apply rotate_sound; assumption.
Qed.

Lemma sound_0 : sound 0 (mkbounds scale scale 0 0).
Proof.
  unfold sound. cbn [cos_lo cos_hi sin_lo sin_hi].
  rewrite cos_0, sin_0. lra.
Qed.

Lemma entry_sound (a : Z) :
  (0 <= a <= 182)%Z -> sound (IZR a * eta) (entry quadrant_table a).
Proof.
  intros H. unfold entry, quadrant_table.
  pose proof (table_from_sound 183 (mkbounds scale scale 0 0) 0 (Z.to_nat a)) as T.
  cbn [Nat.add] in T. rewrite (INR_IZR_INZ (Z.to_nat a)), Z2Nat.id in T by lia.
  apply T; [| lia | lia].
  simpl INR. rewrite Rmult_0_l. apply sound_0.
Qed.

Lemma sound_ext (x y : R) (b : bounds) :
  cos x = cos y -> sin x = sin y -> sound y b -> sound x b.
Proof. unfold sound. intros -> ->. trivial. Qed.

Lemma flip_cos_sound (x y : R) (b : bounds) :
  cos x = - cos y -> sin x = sin y -> sound y b -> sound x (flip_cos b).
Proof.
  unfold sound, flip_cos. cbn [cos_lo cos_hi sin_lo sin_hi].
  intros -> ->. rewrite !opp_IZR. lra.
Qed.

Lemma flip_sin_sound (x y : R) (b : bounds) :
  cos x = cos y -> sin x = - sin y -> sound y b -> sound x (flip_sin b).
Proof.
  unfold sound, flip_sin. cbn [cos_lo cos_hi sin_lo sin_hi].
  intros -> ->. rewrite !opp_IZR. lra.
Qed.

Lemma turn_reduce (k : Z) :
  (0 <= k)%Z ->
  cos (turn k) = cos (turn (k mod 365)) /\ sin (turn k) = sin (turn (k mod 365)).
Proof.
  intros H.
  assert (E : turn k = turn (k mod 365) + 2 * INR (Z.to_nat (k / 365)) * PI).
  { unfold turn. rewrite INR_IZR_INZ, Z2Nat.id by (apply Z.div_pos; lia).
    rewrite (Z.div_mod k 365) at 1 by lia.
    rewrite plus_IZR, mult_IZR. field. }
  rewrite E, cos_period, sin_period. split; reflexivity.
Qed.

Lemma turn_bounds_sound (k : Z) :
  (0 <= k)%Z -> sound (turn k) (turn_bounds quadrant_table k).
Proof.
  intros H. destruct (turn_reduce k H) as [Ec Es].
  apply (sound_ext _ _ _ Ec Es).
  unfold turn_bounds. cbv zeta.
  pose proof (Z.mod_pos_bound k 365 ltac:(lia)) as R.
  set (r := (k mod 365)%Z) in *.
  destruct (Z.leb_spec (4 * r) 365) as [Q1 | Q1].
  { replace (turn r) with (IZR (2 * r) * eta)
      by (unfold turn, eta; rewrite mult_IZR; field).
    apply entry_sound. lia. }
  destruct (Z.leb_spec (4 * r) 730) as [Q2 | Q2].
  { apply (flip_cos_sound _ (IZR (365 - 2 * r) * eta)); [| | apply entry_sound; lia].
    - replace (turn r) with (PI - IZR (365 - 2 * r) * eta)
        by (unfold turn, eta; rewrite minus_IZR, mult_IZR; field).
      apply Rtrigo_facts.cos_pi_minus.
    - replace (turn r) with (PI - IZR (365 - 2 * r) * eta)
        by (unfold turn, eta; rewrite minus_IZR, mult_IZR; field).
      apply sin_PI_x. }
  destruct (Z.leb_spec (4 * r) 1095) as [Q3 | Q3].
  { apply (flip_cos_sound _ (- (IZR (2 * r - 365) * eta))).
    - replace (turn r) with (PI - - (IZR (2 * r - 365) * eta))
        by (unfold turn, eta; rewrite minus_IZR, mult_IZR; field).
      apply Rtrigo_facts.cos_pi_minus.
    - replace (turn r) with (PI - - (IZR (2 * r - 365) * eta))
        by (unfold turn, eta; rewrite minus_IZR, mult_IZR; field).
      apply sin_PI_x.
    - apply (flip_sin_sound _ (IZR (2 * r - 365) * eta));
        [apply cos_neg | apply sin_neg | apply entry_sound; lia]. }
  apply (flip_sin_sound _ (IZR (730 - 2 * r) * eta)); [| | apply entry_sound; lia].
  - replace (turn r) with (- (IZR (730 - 2 * r) * eta) + 2 * INR 1 * PI)
      by (unfold turn, eta; rewrite minus_IZR, mult_IZR; simpl INR; field).
    rewrite cos_period. apply cos_neg.
  - replace (turn r) with (- (IZR (730 - 2 * r) * eta) + 2 * INR 1 * PI)
      by (unfold turn, eta; rewrite minus_IZR, mult_IZR; simpl INR; field).
    rewrite sin_period. apply sin_neg.
Qed.

Lemma declination_bounds_sound (n : Z) :
  (1 <= n)%Z ->
  IZR (declination_lo quadrant_table n)
  <= 1000000 * IZR scale * declination_series (day_angle n)
  <= IZR (declination_hi quadrant_table n).
Proof.
  intros H.
  destruct (turn_bounds_sound (n - 1)) as [[C1l C1h] [S1l S1h]]; [lia |].
  destruct (turn_bounds_sound (2 * (n - 1))) as [[C2l C2h] [S2l S2h]]; [lia |].
  destruct (turn_bounds_sound (3 * (n - 1))) as [[C3l C3h] [S3l S3h]]; [lia |].
  replace (turn (2 * (n - 1))) with (2 * day_angle n) in *
    by (unfold turn, day_angle; rewrite mult_IZR; field).
  replace (turn (3 * (n - 1))) with (3 * day_angle n) in *
    by (unfold turn, day_angle; rewrite mult_IZR; field).
  change (turn (n - 1)) with (day_angle n) in *.
  unfold declination_lo, declination_hi, declination_series. cbv zeta.
  set (b1 := turn_bounds quadrant_table (n - 1)) in *.
  set (b2 := turn_bounds quadrant_table (2 * (n - 1))) in *.
  set (b3 := turn_bounds quadrant_table (3 * (n - 1))) in *.
  repeat first [rewrite plus_IZR | rewrite minus_IZR | rewrite mult_IZR].
  unfold scale in *.
  split; lra.
Qed.

Lemma range_ok_all : all_days range_ok = true.
Proof. vm_compute. reflexivity. Qed.

Lemma off_horizon_all : all_days off_horizon = true.
Proof. vm_compute. reflexivity. Qed.

End DeclinationBounds.

(** C2: for every valid date the day of the year is read without error and
    is the calendar day number [n] of the date (the days of the months
    before it plus its day of the month), in 1..365 (366 in a leap year);
    the estimator returns the seven-term series
    0.006918 - 0.399912 cos g + 0.070257 sin g - 0.006758 cos 2g
    + 0.000907 sin 2g - 0.002697 cos 3g + 0.001480 sin 3g
    at the day angle g = 2 pi (n - 1) / 365, the divisor being 365 in leap
    years too. *)
Theorem solar_declination_rad_formula (d : date) :
  valid_date d ->
  day_of_year d = Returned (yday d) /\
  (1 <= yday d <= if is_leap (year d) then 366 else 365)%Z /\
  let g := (2 * PI * (IZR (yday d) - 1) / 365)%R in
  solar_declination_rad d =
  Returned (0.006918 - 0.399912 * cos g + 0.070257 * sin g
            - 0.006758 * cos (2 * g) + 0.000907 * sin (2 * g)
            - 0.002697 * cos (3 * g) + 0.001480 * sin (3 * g))%R.
Proof.
  intros V. split; [apply day_of_year_yday, V|].
  split; [apply (yday_range d V)|].
  cbv zeta. rewrite (solar_declination_rad_yday d V).
  unfold declination_series, day_angle. rewrite minus_IZR. reflexivity.
Qed.

Lemma solar_declination_rad_formula_witness :
  valid_date (mkdate 2024 6 21) /\
  day_of_year (mkdate 2024 6 21) = Returned 173%Z /\
  (1 <= 173 <= 366)%Z /\
  let g := (2 * PI * (173 - 1) / 365)%R in
  solar_declination_rad (mkdate 2024 6 21) =
  Returned (0.006918 - 0.399912 * cos g + 0.070257 * sin g
            - 0.006758 * cos (2 * g) + 0.000907 * sin (2 * g)
            - 0.002697 * cos (3 * g) + 0.001480 * sin (3 * g))%R.
Proof.
  split; [reflexivity|].
  apply (solar_declination_rad_formula (mkdate 2024 6 21)). reflexivity.
Defined.

(** C10: for every valid date the declination is at most 0.488929 in
    absolute value, the sum of the absolute values of the seven
    coefficients; so its cosine is positive, and the denominator
    cos(phi) cos(delta) of [calculate_daylight] is zero only when cos(phi)
    is. *)
Theorem solar_declination_rad_bound (d : date) :
  valid_date d ->
  exists delta : R,
    solar_declination_rad d = Returned delta /\
    (Rabs delta <= 0.006918 + 0.399912 + 0.070257 + 0.006758
                   + 0.000907 + 0.002697 + 0.001480)%R /\
    (Rabs delta <= 0.488929)%R /\
    (0 < cos delta)%R /\
    forall lat_deg : R,
      cos_H0_den (deg2rad lat_deg) delta = 0%R -> cos (deg2rad lat_deg) = 0%R.
Proof.
  intros V. exists (declination_series (day_angle (yday d))).
  split; [apply solar_declination_rad_yday, V|].
  pose proof (declination_series_abs (day_angle (yday d))) as B.
  pose proof (cos_pos_of_abs _ B) as C.
  repeat split; try assumption; try lra.
  intros lat_deg. unfold cos_H0_den. intros E.
  apply Rmult_integral in E. destruct E as [E | E]; [exact E | lra].
Qed.

Lemma solar_declination_rad_bound_witness :
  valid_date (mkdate 2023 12 21) /\
  exists delta : R,
    solar_declination_rad (mkdate 2023 12 21) = Returned delta /\
    (Rabs delta <= 0.006918 + 0.399912 + 0.070257 + 0.006758
                   + 0.000907 + 0.002697 + 0.001480)%R /\
    (Rabs delta <= 0.488929)%R /\
    (0 < cos delta)%R /\
    forall lat_deg : R,
      cos_H0_den (deg2rad lat_deg) delta = 0%R -> cos (deg2rad lat_deg) = 0%R.
Proof.
  split; [reflexivity|].
  apply (solar_declination_rad_bound (mkdate 2023 12 21)). reflexivity.
Defined.

(** ** Classification of the day *)

Section Classification.

Open Scope R_scope.

Lemma np_div_finite (x y : R) : y <> 0 -> np_div x y = Finite (x / y).
Proof. intros H. unfold np_div. destruct (Req_dec_T y 0); [contradiction | reflexivity]. Qed.

Lemma np_div_zero_pos (x : R) : 0 < x -> np_div x 0 = PosInf.
Proof.
  intros H. unfold np_div.
  destruct (Req_dec_T 0 0) as [_ | N]; [| contradiction N; reflexivity].
  destruct (Rlt_dec 0 x); [reflexivity | contradiction].
Qed.

Lemma np_div_zero_neg (x : R) : x < 0 -> np_div x 0 = NegInf.
Proof.
  intros H. unfold np_div.
  destruct (Req_dec_T 0 0) as [_ | N]; [| contradiction N; reflexivity].
  destruct (Rlt_dec 0 x); [lra |].
  destruct (Rlt_dec x 0); [reflexivity | contradiction].
Qed.

Lemma np_div_zero_zero : np_div 0 0 = NaN.
Proof.
  unfold np_div.
  destruct (Req_dec_T 0 0) as [_ | N]; [| contradiction N; reflexivity].
  destruct (Rlt_dec 0 0); [lra | reflexivity].
Qed.

Lemma np_le_finite (r c : R) : np_le (Finite r) c = true <-> r <= c.
Proof. simpl. destruct (Rle_dec r c); split; intros; try assumption; try reflexivity; try discriminate; contradiction. Qed.

Lemma np_ge_finite (r c : R) : np_ge (Finite r) c = true <-> c <= r.
Proof. simpl. destruct (Rle_dec c r); split; intros; try assumption; try reflexivity; try discriminate; contradiction. Qed.

Lemma np_le_finite_false (r c : R) : np_le (Finite r) c = false <-> c < r.
Proof. simpl. destruct (Rle_dec r c); split; intros; try lra; try reflexivity; discriminate. Qed.

Lemma np_ge_finite_false (r c : R) : np_ge (Finite r) c = false <-> r < c.
Proof. simpl. destruct (Rle_dec c r); split; intros; try lra; try reflexivity; discriminate. Qed.

Lemma np_arccos_inside (r : R) : -1 < r < 1 -> np_arccos (Finite r) = Finite (acos r).
Proof.
  intros [H1 H2]. simpl.
  destruct (Rle_dec (-1) r); [| lra]. destruct (Rle_dec r 1); [reflexivity | lra].
Qed.

(** The value [calculate_daylight] returns once the declination is known. *)
Lemma calculate_daylight_unfold (lat_deg : R) (d : date) (delta : R) :
  solar_declination_rad d = Returned delta ->
  calculate_daylight lat_deg d =
  Returned
    (let cos_H0 :=
       np_div (cos_H0_num (deg2rad lat_deg) delta (deg2rad (-0.833)))
              (cos_H0_den (deg2rad lat_deg) delta) in
     if np_le cos_H0 (-1) then (Finite 24, PolarDay)
     else if np_ge cos_H0 1 then (Finite 0, PolarNight)
     else (np_div_const (np_scale 2 (np_rad2deg (np_arccos cos_H0))) 15, NormalDay)).
Proof.
  intros E. unfold calculate_daylight. rewrite E. cbn [obind]. cbv zeta.
  destruct (np_le _ (-1)); [reflexivity|].
  destruct (np_ge _ 1); reflexivity.
Qed.

Lemma hours_of_angle (a : R) : 0 < a < PI -> 0 < 2 * rad2deg a / 15 < 24.
Proof.
  intros [H1 H2]. unfold rad2deg. pose proof PI_RGT_0 as P.
  replace (2 * (a * (180 / PI)) / 15) with (24 * (a / PI)) by (field; lra).
  assert (0 < a / PI) by (apply Rdiv_lt_0_compat; lra).
  assert (a / PI < 1).
  { apply Rmult_lt_reg_r with PI; [exact P|].
    replace (a / PI * PI) with a by (field; lra). lra. }
  lra.
Qed.

End Classification.



(** ** The hour formatter *)

Section Formatting.

Open Scope R_scope.

Lemma np_round_floor_or_next (x : R) :
  np_round x = Zfloor x \/ np_round x = (Zfloor x + 1)%Z.
Proof.
  unfold np_round.
  destruct (Rlt_dec _ _); [left; reflexivity|].
  destruct (Rlt_dec _ _); [right; reflexivity|].
  destruct (Z.even _); [left | right]; reflexivity.
Qed.

Lemma np_round_nearest (z : Z) (x : R) :
  IZR z - 1 / 2 < x < IZR z + 1 / 2 -> np_round x = z.
Proof.
  intros [L U]. unfold np_round.
  pose proof (Zfloor_bound x) as [F1 F2].
  destruct (Rlt_dec (x - IZR (Zfloor x)) (1 / 2)) as [A | A].
  - assert (H1 : (Zfloor x < z + 1)%Z) by (apply lt_IZR; rewrite plus_IZR; lra).
    assert (H2 : (z - 1 < Zfloor x)%Z) by (apply lt_IZR; rewrite minus_IZR; lra).
    lia.
  - assert (H1 : (Zfloor x < z)%Z) by (apply lt_IZR; lra).
    assert (H2 : (z - 2 < Zfloor x)%Z) by (apply lt_IZR; rewrite minus_IZR; lra).
    assert (E : Zfloor x = (z - 1)%Z) by lia.
    rewrite E in *. rewrite minus_IZR in *.
    destruct (Rlt_dec (1 / 2) (x - (IZR z - 1))) as [B | B]; [lia | lra].
Qed.

Lemma np_round_error (x : R) : Rabs (IZR (np_round x) - x) <= 1 / 2.
Proof.
  unfold np_round. pose proof (Zfloor_bound x) as [F1 F2].
  destruct (Rlt_dec (x - IZR (Zfloor x)) (1 / 2)) as [A | A].
  - apply Rabs_le. lra.
  - destruct (Rlt_dec (1 / 2) (x - IZR (Zfloor x))) as [B | B].
    + rewrite plus_IZR. apply Rabs_le. lra.
    + destruct (Z.even (Zfloor x)); [| rewrite plus_IZR]; apply Rabs_le; lra.
Qed.

Lemma np_round_integer (z : Z) : np_round (IZR z) = z.
Proof. apply np_round_nearest. lra. Qed.

Lemma np_round_le_int (y : R) (k : Z) : y <= IZR k -> (np_round y <= k)%Z.
Proof.
  intros H. pose proof (Zfloor_bound y) as [F1 F2].
  assert (F : (Zfloor y <= k)%Z) by (apply le_IZR; lra).
  destruct (Z.eq_dec (Zfloor y) k) as [E | E].
  - assert (Y : y = IZR k) by (rewrite E in F1; lra).
    rewrite Y, np_round_integer. lia.
  - destruct (np_round_floor_or_next y) as [-> | ->]; lia.
Qed.

Lemma np_round_ge_int (y : R) (k : Z) : IZR k <= y -> (k <= np_round y)%Z.
Proof.
  intros H. assert (F : (k <= Zfloor y)%Z) by (apply Zfloor_lub; exact H).
  destruct (np_round_floor_or_next y) as [-> | ->]; lia.
Qed.

(** *** Rounding to binary64 *)

Lemma powerRZ_2_pos (z : Z) : 0 < powerRZ 2 z.
Proof. apply powerRZ_lt. lra. Qed.

Lemma powerRZ_2_nat (z : Z) : (0 <= z)%Z -> powerRZ 2 z = IZR (2 ^ z).
Proof.
  intros P. destruct z as [| p | p]; [reflexivity | | lia].
  change (2 ^ Z.pos p)%Z with (Z.pow_pos 2 p).
  rewrite Zpower_pos_powerRZ. reflexivity.
Qed.

Lemma powerRZ_2_le (a b : Z) : (a <= b)%Z -> powerRZ 2 a <= powerRZ 2 b.
Proof.
  intros H. replace b with (a + (b - a))%Z by lia.
  rewrite powerRZ_add by lra.
  pose proof (powerRZ_2_pos a) as A.
  assert (B : 1 <= powerRZ 2 (b - a)).
  { rewrite powerRZ_2_nat by lia. apply IZR_le.
    pose proof (Z.pow_pos_nonneg 2 (b - a)). lia. }
  nra.
Qed.

Lemma ulp_pos (x : R) : 0 < ulp x.
Proof. apply powerRZ_2_pos. Qed.

(** A magnitude below [2^k] lies in a binade below [k]. *)
Lemma binade_lt (x : R) (k : Z) :
  (-1022 < k)%Z -> Rabs x < powerRZ 2 k -> (binade x < k)%Z.
Proof.
  intros K H. unfold binade. destruct (Req_dec_T x 0) as [Z | NZ]; [exact K |].
  apply Z.max_lub_lt; [exact K |].
  assert (A : 0 < Rabs x) by (apply Rabs_pos_lt, NZ).
  pose proof (ln_increasing _ _ A H) as L.
  rewrite (powerRZ_Rpower 2 k) in L by lra. unfold Rpower in L. rewrite ln_exp in L.
  pose proof ln_lt_2 as L2.
  assert (Q : ln (Rabs x) / ln 2 < IZR k).
  { apply Rmult_lt_reg_r with (ln 2); [lra |].
    unfold Rdiv. rewrite Rmult_assoc, Rinv_l by lra. lra. }
  apply lt_IZR. pose proof (Zfloor_bound (ln (Rabs x) / ln 2)). lra.
Qed.

Lemma ulp_le (x : R) (k : Z) :
  (-1022 < k)%Z -> Rabs x < powerRZ 2 k -> ulp x <= powerRZ 2 (k - 53).
Proof.
  intros K H. apply powerRZ_2_le. pose proof (binade_lt x k K H). lia.
Qed.

(** The rounded number is within half a unit in the last place. *)
Lemma round64_error (x : R) : Rabs (round64 x - x) <= ulp x / 2.
Proof.
  unfold round64. pose proof (ulp_pos x) as U.
  pose proof (np_round_error (x / ulp x)) as E.
  apply Rabs_le_both in E. destruct E as [E1 E2].
  set (n := IZR (np_round (x / ulp x))) in *.
  replace (n * ulp x - x) with ((n - x / ulp x) * ulp x) by (field; lra).
  apply (Rmult_le_compat_r (ulp x)) in E1; [| lra].
  apply (Rmult_le_compat_r (ulp x)) in E2; [| lra].
  apply Rabs_le. lra.
Qed.

(** Below [2^53] every integer is a multiple of the unit in the last
    place, so rounding does not cross an integer. *)
Lemma ulp_divides (x : R) (c : Z) :
  Rabs x < powerRZ 2 53 ->
  exists k : Z, IZR c = IZR k * ulp x.
Proof.
  intros H. pose proof (binade_lt x 53 ltac:(lia) H) as B.
  exists (c * 2 ^ (52 - binade x))%Z.
  rewrite mult_IZR, <- powerRZ_2_nat by lia. unfold ulp.
  rewrite Rmult_assoc, <- powerRZ_add by lra.
  replace (52 - binade x + (binade x - 52))%Z with 0%Z by lia.
  simpl. lra.
Qed.

Lemma round64_le_int (x : R) (c : Z) :
  Rabs x < powerRZ 2 53 -> x <= IZR c -> round64 x <= IZR c.
Proof.
  intros H L. destruct (ulp_divides x c H) as (k & E).
  pose proof (ulp_pos x) as U. rewrite E in *. unfold round64.
  apply Rmult_le_compat_r; [lra |]. apply IZR_le, np_round_le_int.
  apply Rmult_le_reg_r with (ulp x); [lra |].
  unfold Rdiv. rewrite Rmult_assoc, Rinv_l by lra. lra.
Qed.

Lemma round64_ge_int (x : R) (c : Z) :
  Rabs x < powerRZ 2 53 -> IZR c <= x -> IZR c <= round64 x.
Proof.
  intros H L. destruct (ulp_divides x c H) as (k & E).
  pose proof (ulp_pos x) as U. rewrite E in *. unfold round64.
  apply Rmult_le_compat_r; [lra |]. apply IZR_le, np_round_ge_int.
  apply Rmult_le_reg_r with (ulp x); [lra |].
  unfold Rdiv. rewrite Rmult_assoc, Rinv_l by lra. lra.
Qed.

Lemma pow2_53 : powerRZ 2 53 = 9007199254740992.
Proof. rewrite powerRZ_2_nat by lia. reflexivity. Qed.

Lemma pow2_m53 : powerRZ 2 (0 - 53) < 12 / 100000000000000000.
Proof.
  change (0 - 53)%Z with (- (53))%Z. rewrite powerRZ_neg', powerRZ_2_nat by lia.
  change (2 ^ 53)%Z with 9007199254740992%Z.
  apply Rmult_lt_reg_r with 9007199254740992; [lra |].
  rewrite Rinv_l by lra. lra.
Qed.

Lemma pow2_m47 : powerRZ 2 (6 - 53) < 72 / 10000000000000000.
Proof.
  change (6 - 53)%Z with (- (47))%Z. rewrite powerRZ_neg', powerRZ_2_nat by lia.
  change (2 ^ 47)%Z with 140737488355328%Z.
  apply Rmult_lt_reg_r with 140737488355328; [lra |].
  rewrite Rinv_l by lra. lra.
Qed.

(** *** The minutes *)

(** The binary64 product [(hours - h) * 60] of a fraction of an hour is
    within 10^-14 of the exact product, and on the same side of 0 and of
    60 minutes. *)
Lemma minute_fraction_close (hours : R) (h : Z) :
  Rabs (hours - IZR h) < 1 ->
  Rabs (minute_fraction hours h - (hours - IZR h) * 60)
    <= 1 / 100000000000000 /\
  (0 <= hours - IZR h -> 0 <= minute_fraction hours h <= 60) /\
  (hours - IZR h <= 0 -> -60 <= minute_fraction hours h <= 0).
Proof.
  intros F. unfold minute_fraction. set (f := hours - IZR h) in *.
  pose proof pow2_53 as P53.
  assert (F53 : Rabs f < powerRZ 2 53) by lra.
  assert (F0 : Rabs f < powerRZ 2 0) by (simpl; lra).
  pose proof (round64_error f) as E1.
  pose proof (ulp_le f 0 ltac:(lia) F0) as U1.
  pose proof pow2_m53 as Q1. pose proof (ulp_pos f) as V1.
  apply Rabs_le_both in E1.
  assert (B : -1 <= f <= 1).
  { apply Rabs_le_both. lra. }
  assert (B1 : -1 <= round64 f <= 1).
  { split; [apply (round64_ge_int f (-1) F53) | apply (round64_le_int f 1 F53)]; lra. }
  set (q := round64 f * 60) in *.
  assert (Q53 : Rabs q < powerRZ 2 53).
  { rewrite P53. apply Rle_lt_trans with 60; [apply Rabs_le; unfold q; lra | lra]. }
  assert (Q6 : Rabs q < powerRZ 2 6).
  { rewrite powerRZ_2_nat by lia. change (2 ^ 6)%Z with 64%Z.
    apply Rle_lt_trans with 60; [apply Rabs_le; unfold q; lra | lra]. }
  pose proof (round64_error q) as E2.
  pose proof (ulp_le q 6 ltac:(lia) Q6) as U2.
  pose proof pow2_m47 as Q2. pose proof (ulp_pos q) as V2.
  apply Rabs_le_both in E2.
  split; [apply Rabs_le; unfold q in *; lra |]. split; intros S.
  - assert (S1 : 0 <= round64 f) by (apply (round64_ge_int f 0 F53), S).
    split; [apply (round64_ge_int q 0 Q53) | apply (round64_le_int q 60 Q53)];
      unfold q; lra.
  - assert (S1 : round64 f <= 0) by (apply (round64_le_int f 0 F53), S).
    split; [apply (round64_ge_int q (-60) Q53) | apply (round64_le_int q 0 Q53)];
      unfold q; lra.
Qed.

Lemma minutes_range (hours : R) :
  (0 <= np_round (minute_fraction hours (Zfloor hours)) <= 60)%Z.
Proof.
  pose proof (Zfloor_bound hours) as [F1 F2].
  destruct (minute_fraction_close hours (Zfloor hours)) as (_ & P & _);
    [apply Rabs_def1; lra |].
  destruct P as [P1 P2]; [lra |].
  split; [apply np_round_ge_int | apply np_round_le_int]; assumption.
Qed.

(** The minutes before the carry are the exact product rounded to a nearest
    integer, up to the rounding of the product. *)
Lemma minutes_error (hours : R) (h : Z) :
  Rabs (hours - IZR h) < 1 ->
  Rabs (IZR (np_round (minute_fraction hours h)) - (hours - IZR h) * 60)
    <= 1 / 2 + 1 / 100000000000000.
Proof.
  intros F. destruct (minute_fraction_close hours h F) as (C & _).
  pose proof (np_round_error (minute_fraction hours h)) as E.
  apply Rabs_le_both in C. apply Rabs_le_both in E. apply Rabs_le. lra.
Qed.

(** Away from the half minutes the rounding of the product does not
    matter. *)
Lemma minutes_nearest (hours : R) (h m : Z) :
  Rabs (hours - IZR h) < 1 ->
  IZR m - 49 / 100 < (hours - IZR h) * 60 < IZR m + 49 / 100 ->
  np_round (minute_fraction hours h) = m.
Proof.
  intros F B. destruct (minute_fraction_close hours h F) as (C & _).
  apply Rabs_le_both in C. apply np_round_nearest. lra.
Qed.

Lemma fmt_hours_finite (hours : R) :
  0 <= hours ->
  fmt_hours (Finite hours) =
  Returned
    (let m := np_round (minute_fraction hours (Zfloor hours)) in
     if (m =? 60)%Z
     then (str_of_int (Zfloor hours + 1) ++ "h " ++ str_of_int 0 ++ "m")%string
     else (str_of_int (Zfloor hours) ++ "h " ++ str_of_int m ++ "m")%string).
Proof.
  intros P. unfold fmt_hours, int_of_float. cbn [obind].
  destruct (Rle_dec 0 hours) as [_ | N]; [| contradiction].
  cbv zeta. destruct (_ =? 60)%Z; reflexivity.
Qed.

Lemma fmt_hours_12_5 : fmt_hours (Finite 12.5) = Returned "12h 30m"%string.
Proof.
  rewrite fmt_hours_finite by lra.
  assert (F : Zfloor 12.5 = 12%Z) by (apply Zfloor_eq; lra).
  rewrite F. cbv zeta.
  rewrite (minutes_nearest 12.5 12 30) by (try apply Rabs_def1; lra). reflexivity.
Qed.

Lemma fmt_hours_5_9999 : fmt_hours (Finite 5.9999) = Returned "6h 0m"%string.
Proof.
  rewrite fmt_hours_finite by lra.
  assert (F : Zfloor 5.9999 = 5%Z) by (apply Zfloor_eq; lra).
  rewrite F. cbv zeta.
  rewrite (minutes_nearest 5.9999 5 60) by (try apply Rabs_def1; lra). reflexivity.
Qed.

End Formatting.

(** C9: a duration [hours >= 0] is rendered as "{H}h {M}m".  The minutes are
    [np.round] of the product (hours - floor hours) * 60 as the code computes
    it, in binary64, which is the exact product rounded to a nearest integer
    up to the rounding of the product (10^-14 of a minute); minutes that
    round to 60 carry into the hour, so the minute shown is always in 0..59.
    12.5 hours is "12h 30m" and 5.9999 hours is "6h 0m", not "5h 60m". *)
Theorem fmt_hours_carry (hours : R) :
  (0 <= hours)%R ->
  (exists H M : Z,
     fmt_hours (Finite hours) =
     Returned (str_of_int H ++ "h " ++ str_of_int M ++ "m")%string /\
     (0 <= M <= 59)%Z /\
     let fl := Zfloor hours in
     let mins := np_round (round64 (round64 (hours - IZR fl) * 60))%R in
     (Rabs (IZR mins - (hours - IZR fl) * 60) <= 1 / 2 + 1 / 100000000000000)%R /\
     (mins <> 60%Z -> H = fl /\ M = mins) /\
     (mins = 60%Z -> H = (fl + 1)%Z /\ M = 0%Z)) /\
  fmt_hours (Finite 12.5) = Returned "12h 30m"%string /\
  fmt_hours (Finite 5.9999) = Returned "6h 0m"%string /\
  fmt_hours (Finite 5.9999) <> Returned "5h 60m"%string.
Proof.
  intros P. split; [| split; [apply fmt_hours_12_5 | split]].
  - rewrite (fmt_hours_finite hours P). cbv zeta.
    pose proof (minutes_range hours) as Rg.
    pose proof (Zfloor_bound hours) as [F1 F2].
    pose proof (minutes_error hours (Zfloor hours) ltac:(apply Rabs_def1; lra)) as Er.
    unfold minute_fraction in *.
    destruct (Z.eqb_spec
                (np_round (round64 (round64 (hours - IZR (Zfloor hours)) * 60))) 60)
      as [E | E].
    + exists (Zfloor hours + 1)%Z, 0%Z. repeat split; try lia; try reflexivity.
      exact Er.
    + exists (Zfloor hours),
        (np_round (round64 (round64 (hours - IZR (Zfloor hours)) * 60))).
      repeat split; try lia; try reflexivity. exact Er.
  - apply fmt_hours_5_9999.
  - rewrite fmt_hours_5_9999. discriminate.
Qed.

Lemma fmt_hours_carry_witness :
  (0 <= 5.9999)%R /\
  ((exists H M : Z,
     fmt_hours (Finite 5.9999) =
     Returned (str_of_int H ++ "h " ++ str_of_int M ++ "m")%string /\
     (0 <= M <= 59)%Z /\
     let fl := Zfloor 5.9999 in
     let mins := np_round (round64 (round64 (5.9999 - IZR fl) * 60))%R in
     (Rabs (IZR mins - (5.9999 - IZR fl) * 60) <= 1 / 2 + 1 / 100000000000000)%R /\
     (mins <> 60%Z -> H = fl /\ M = mins) /\
     (mins = 60%Z -> H = (fl + 1)%Z /\ M = 0%Z)) /\
  fmt_hours (Finite 12.5) = Returned "12h 30m"%string /\
  fmt_hours (Finite 5.9999) = Returned "6h 0m"%string /\
  fmt_hours (Finite 5.9999) <> Returned "5h 60m"%string).
Proof.
  split; [lra | apply (fmt_hours_carry 5.9999); lra].
Defined.

(** ** The table generator *)

Section Table.

Open Scope Z_scope.

Variable lat_deg : R.

Lemma add_one_day_in_year (d : date) :
  valid_date d -> year d < 9999 ->
  (yday d < days_in_year (year d) /\
   exists d', add_one_day d = Returned d' /\ valid_date d' /\
              year d' = year d /\ yday d' = yday d + 1) \/
  (yday d = days_in_year (year d) /\
   add_one_day d = Returned (mkdate (year d + 1) 1 1)).
Proof.
  intros V Y. destruct (valid_date_fields d V) as (Hy & Hm & Hd).
  destruct d as [y m dd]; cbn [year month day] in *.
  unfold add_one_day, yday, days_in_year, valid_date, valid_dateb,
    days_before_month, days_in_month, MINYEAR, MAXYEAR in *;
    cbn [year month day] in *.
  each_month Hm; destruct (is_leap y) eqn:L; month_simpl;
    match goal with
    | |- context [dd <? ?b] => destruct (Z.ltb_spec dd b) as [C | C]
    end;
    try (left; split; [lia |];
         eexists; split; [reflexivity |]; cbn [year month day];
         closed_succ; rewrite ?L; month_simpl;
         rewrite ?andb_true_iff, ?Z.leb_le; repeat split; lia);
    try (destruct (Z.ltb_spec y 9999) as [C' | C']; [| lia];
         right; split; [lia | reflexivity]).
Qed.

Lemma date_ltb_next_year (d : date) (y : Z) :
  valid_date d -> year d = y -> date_ltb d (mkdate (y + 1) 1 1) = true.
Proof.
  intros _ <-. unfold date_ltb. cbn [year month day].
  destruct (Z.ltb_spec (year d) (year d + 1)); [reflexivity | lia].
Qed.

Lemma date_ltb_irrefl (d : date) : date_ltb d d = false.
Proof.
  unfold date_ltb. rewrite !Z.ltb_irrefl, !Z.eqb_refl. reflexivity.
Qed.

Lemma calculate_daylight_returns (d : date) :
  valid_date d -> exists h c, calculate_daylight lat_deg d = Returned (h, c).
Proof.
  intros V.
  rewrite (calculate_daylight_unfold lat_deg d _ (solar_declination_rad_yday d V)).
  cbv zeta. destruct (np_le _ _); [eauto |]. destruct (np_ge _ _); eauto.
Qed.

Lemma table_step_row (d : date) (f : list csv_line) :
  valid_date d ->
  exists r : table_row,
    row_of_day lat_deg (year d) (yday d) r /\ row_date r = d /\
    table_step lat_deg d f = (add_one_day d, f ++ [DataLine r])%list.
Proof.
  intros V.
  destruct (calculate_daylight_returns d V) as (h & c & E).
  exists (mkrow d (yday d) (rad2deg (declination_series (day_angle (yday d)))) h c).
  split; [| split; [reflexivity |]].
  - unfold row_of_day. cbn [row_date row_doy row_declination_deg
                            row_daylight_hours row_condition].
    repeat split; try assumption; try reflexivity.
    + apply day_of_year_yday, V.
    + eexists. split; [apply solar_declination_rad_yday, V | reflexivity].
  - unfold table_step, wbind, wlift, writerow.
    rewrite E, (solar_declination_rad_yday d V), (day_of_year_yday d V).
    reflexivity.
Qed.

Lemma table_loop_rows (y : Z) :
  1 <= y <= 9998 ->
  forall (k fuel : nat) (d : date) (f : list csv_line),
    valid_date d -> year d = y ->
    yday d + Z.of_nat k = days_in_year y ->
    (S k < fuel)%nat ->
    exists rows : list table_row,
      table_loop fuel lat_deg d (mkdate (y + 1) 1 1) f
      = (Returned tt, f ++ map DataLine rows)%list /\
      List.length rows = S k /\
      forall (i : nat) (r : table_row),
        nth_error rows i = Some r ->
        row_of_day lat_deg y (yday d + Z.of_nat i) r.
Proof.
  intros Hy k. induction k as [| k IH]; intros fuel d f V Y K F.
  - destruct fuel as [| [| fuel]]; try lia.
    cbn [table_loop]. rewrite (date_ltb_next_year d y V Y).
    destruct (table_step_row d f V) as (r & R & _ & TS).
    unfold wbind at 1. rewrite TS.
    assert (Q := add_one_day_in_year d V ltac:(lia)). rewrite Y in Q.
    destruct Q as [(C & _) | (_ & A)]; [lia |].
    rewrite A, date_ltb_irrefl. unfold wret.
    exists [r]. split; [reflexivity | split; [reflexivity |]].
    intros [| i] r' Hr; cbn in Hr.
    + injection Hr as <-. rewrite Y in R.
      replace (yday d + Z.of_nat 0) with (yday d) by lia. exact R.
    + destruct i; discriminate.
  - destruct fuel as [| fuel]; try lia.
    cbn [table_loop]. rewrite (date_ltb_next_year d y V Y).
    destruct (table_step_row d f V) as (r & R & _ & TS).
    unfold wbind at 1. rewrite TS.
    assert (Q := add_one_day_in_year d V ltac:(lia)). rewrite Y in Q.
    destruct Q as [(_ & d' & A & V' & Y' & D') | (C & _)]; [| lia].
    rewrite A.
    destruct (IH fuel d' (f ++ [DataLine r])%list V') as (rows & E & L & P);
      try lia.
    exists (r :: rows). split; [| split].
    + rewrite E, <- app_assoc. reflexivity.
    + cbn [List.length]. lia.
    + intros [| i] r' Hr; cbn in Hr.
      * injection Hr as <-. rewrite Y in R.
        replace (yday d + Z.of_nat 0) with (yday d) by lia. exact R.
      * replace (yday d + Z.of_nat (S i)) with (yday d' + Z.of_nat i) by lia.
        apply P, Hr.
Qed.

Lemma yday_inj (d1 d2 : date) :
  valid_date d1 -> valid_date d2 -> year d1 = year d2 ->
  yday d1 = yday d2 -> d1 = d2.
Proof.
  intros V1 V2.
  destruct (valid_date_fields d1 V1) as (_ & Hm1 & Hd1).
  destruct (valid_date_fields d2 V2) as (_ & Hm2 & Hd2).
  destruct d1 as [y1 m1 dd1], d2 as [y2 m2 dd2]; cbn [year month day] in *.
  intros <-. clear V1 V2.
  unfold yday, days_before_month, days_in_month in *; cbn [year month day] in *.
  each_month Hm1; each_month Hm2; destruct (is_leap y1); month_simpl;
    intros E; solve [lia | f_equal; lia].
Qed.

Lemma yday_lt_date_ltb (d1 d2 : date) :
  valid_date d1 -> valid_date d2 -> year d1 = year d2 ->
  yday d1 < yday d2 -> date_ltb d1 d2 = true.
Proof.
  intros V1 V2.
  destruct (valid_date_fields d1 V1) as (_ & Hm1 & Hd1).
  destruct (valid_date_fields d2 V2) as (_ & Hm2 & Hd2).
  destruct d1 as [y1 m1 dd1], d2 as [y2 m2 dd2]; cbn [year month day] in *.
  intros <-. clear V1 V2.
  unfold date_ltb, yday, days_before_month, days_in_month in *;
    cbn [year month day] in *.
  rewrite Z.ltb_irrefl, Z.eqb_refl. cbn [orb andb].
  each_month Hm1; each_month Hm2; destruct (is_leap y1); month_simpl;
    intros E; try reflexivity; try lia;
    apply Z.ltb_lt; lia.
Qed.

Lemma valid_first_day (y : Z) : 1 <= y <= 9999 -> valid_date (mkdate y 1 1).
Proof.
  intros H. unfold valid_date, valid_dateb, MINYEAR, MAXYEAR. cbn.
  rewrite !andb_true_iff, !Z.leb_le. lia.
Qed.

Lemma valid_last_day (y : Z) : 1 <= y <= 9999 -> valid_date (mkdate y 12 31).
Proof.
  intros H. unfold valid_date, valid_dateb, MINYEAR, MAXYEAR. cbn.
  rewrite !andb_true_iff, !Z.leb_le. lia.
Qed.

Lemma yday_last_day (y : Z) : yday (mkdate y 12 31) = days_in_year y.
Proof.
  unfold yday, days_before_month, days_in_year. cbn [year month day].
  month_simpl. destruct (is_leap y); reflexivity.
Qed.

(** What follows from the rows carrying the days 1, 2, ... in order. *)
Section Rows.

Variable y : Z.
Variable rows : list table_row.
Hypothesis year_ok : 1 <= y <= 9998.
Hypothesis rows_length : Z.of_nat (List.length rows) = days_in_year y.
Hypothesis rows_days :
  forall (i : nat) (r : table_row),
    nth_error rows i = Some r -> row_of_day lat_deg y (Z.of_nat i + 1) r.

Lemma rows_lookup (i : nat) :
  (i < List.length rows)%nat -> exists r, nth_error rows i = Some r.
Proof.
  intros H. destruct (nth_error rows i) as [r |] eqn:E; [eauto |].
  apply nth_error_None in E. lia.
Qed.

Lemma rows_cover (d : date) :
  valid_date d -> year d = y ->
  exists r, nth_error rows (Z.to_nat (yday d - 1)) = Some r /\ row_date r = d.
Proof.
  intros V Y. pose proof (yday_range d V) as R. rewrite Y in R.
  destruct (rows_lookup (Z.to_nat (yday d - 1))) as (r & E); [lia |].
  exists r. split; [exact E |].
  destruct (rows_days _ _ E) as (V' & Y' & D' & _).
  apply yday_inj; try assumption; lia.
Qed.

Lemma rows_first :
  exists r, nth_error rows 0 = Some r /\ row_date r = mkdate y 1 1.
Proof.
  destruct (rows_cover (mkdate y 1 1)) as (r & E & D);
    [apply valid_first_day; lia | reflexivity |].
  exists r. split; [exact E | exact D].
Qed.

Lemma rows_last :
  exists r, nth_error rows (List.length rows - 1) = Some r /\
            row_date r = mkdate y 12 31.
Proof.
  destruct (rows_cover (mkdate y 12 31)) as (r & E & D);
    [apply valid_last_day; lia | reflexivity |].
  exists r. split; [| exact D].
  rewrite yday_last_day in E.
  replace (List.length rows - 1)%nat with (Z.to_nat (days_in_year y - 1)) by lia.
  exact E.
Qed.

Lemma rows_ascending (i j : nat) (r r' : table_row) :
  (i < j)%nat -> nth_error rows i = Some r -> nth_error rows j = Some r' ->
  date_ltb (row_date r) (row_date r') = true.
Proof.
  intros L E E'.
  destruct (rows_days _ _ E) as (V & Y & D & _).
  destruct (rows_days _ _ E') as (V' & Y' & D' & _).
  apply yday_lt_date_ltb; try assumption; lia.
Qed.

Lemma rows_consecutive (i : nat) (r r' : table_row) :
  nth_error rows i = Some r -> nth_error rows (S i) = Some r' ->
  add_one_day (row_date r) = Returned (row_date r').
Proof.
  intros E E'.
  destruct (rows_days _ _ E) as (V & Y & D & _).
  destruct (rows_days _ _ E') as (V' & Y' & D' & _).
  assert (Q := add_one_day_in_year (row_date r) V ltac:(lia)).
  destruct Q as [(_ & d' & A & Vd & Yd & Dd) | (C & _)].
  - rewrite A. f_equal. apply yday_inj; try assumption; lia.
  - assert (Hi : (S i < List.length rows)%nat).
    { apply nth_error_Some. rewrite E'. discriminate. }
    rewrite Y in C. lia.
Qed.

Lemma rows_nodup : NoDup (map row_date rows).
Proof.
  apply NoDup_nth_error. intros i j Hi E.
  rewrite length_map in Hi.
  destruct (rows_lookup i Hi) as (r & Er).
  rewrite !nth_error_map, Er in E. cbn in E.
  destruct (nth_error rows j) as [r' |] eqn:Er'; [| discriminate].
  cbn in E. injection E as E.
  destruct (rows_days _ _ Er) as (_ & _ & D & _).
  destruct (rows_days _ _ Er') as (_ & _ & D' & _).
  rewrite E in D. lia.
Qed.

End Rows.

End Table.

(** The constructor on the first of January. *)
Lemma date_new_first_day (y : Z) :
  (1 <= y <= 9999)%Z -> date_new y 1 1 = Returned (mkdate y 1 1).
Proof.
  intros H. pose proof (valid_first_day y H) as V.
  assert (C : fits_c_int y = true).
  { unfold fits_c_int. apply andb_true_intro. split; apply Z.leb_le; lia. }
  unfold date_new. rewrite C. change (fits_c_int 1) with true. cbn [andb].
  unfold valid_date in V. rewrite V. reflexivity.
Qed.


(** C5, as the code has it: for every latitude and every year from 1 to
    9998, [generate_lookup_table] writes the header and then one row per
    calendar day of the year, from January 1 to December 31 in ascending
    order with no gap and no duplicate, each row built from
    [calculate_daylight] and [solar_declination_rad] for its date; the loop
    ends after 365 rows in a common year and 366 in a leap year. *)
Theorem generate_lookup_table_year (lat_deg : R) (y : Z) (fuel : nat) :
  (1 <= y <= 9998)%Z ->
  (Z.to_nat (days_in_year y) < fuel)%nat ->
  exists rows : list table_row,
    generate_lookup_table fuel lat_deg y
    = (Returned tt, header :: map DataLine rows) /\
    List.length rows = (if is_leap y then 366 else 365)%nat /\
    (forall (i : nat) (r : table_row),
        nth_error rows i = Some r ->
        row_of_day lat_deg y (Z.of_nat i + 1) r) /\
    (exists r, nth_error rows 0 = Some r /\ row_date r = mkdate y 1 1) /\
    (exists r, nth_error rows (List.length rows - 1) = Some r /\
               row_date r = mkdate y 12 31) /\
    (forall (i : nat) (r r' : table_row),
        nth_error rows i = Some r -> nth_error rows (S i) = Some r' ->
        add_one_day (row_date r) = Returned (row_date r')) /\
    (forall (i j : nat) (r r' : table_row),
        (i < j)%nat -> nth_error rows i = Some r -> nth_error rows j = Some r' ->
        date_ltb (row_date r) (row_date r') = true) /\
    (forall d : date,
        valid_date d -> year d = y ->
        exists r, nth_error rows (Z.to_nat (yday d - 1)) = Some r /\
                  row_date r = d) /\
    NoDup (map row_date rows).
Proof.
  intros Hy F.
  assert (V1 : valid_date (mkdate y 1 1)) by (apply valid_first_day; lia).
  assert (V2 : valid_date (mkdate (y + 1) 1 1)) by (apply valid_first_day; lia).
  assert (N : (1 <= days_in_year y)%Z)
    by (unfold days_in_year; destruct (is_leap y); lia).
  destruct (table_loop_rows lat_deg y Hy (Z.to_nat (days_in_year y - 1)) fuel
              (mkdate y 1 1) [header] V1 eq_refl) as (rows & E & L & P).
  { unfold yday, days_before_month. cbn [year month day]. month_simpl. lia. }
  { lia. }
  assert (P' : forall (i : nat) (r : table_row),
             nth_error rows i = Some r ->
             row_of_day lat_deg y (Z.of_nat i + 1) r).
  { intros i r Hr. specialize (P i r Hr).
    replace (Z.of_nat i + 1)%Z with (yday (mkdate y 1 1) + Z.of_nat i)%Z; [exact P |].
    unfold yday, days_before_month. cbn [year month day]. month_simpl. lia. }
  assert (L' : Z.of_nat (List.length rows) = days_in_year y) by lia.
  exists rows. split; [| split; [| split; [exact P' |]]].
  - unfold generate_lookup_table, wbind, writerow, wlift.
    rewrite !date_new_first_day by lia. cbn [app]. exact E.
  - rewrite L. unfold days_in_year. destruct (is_leap y); reflexivity.
  - split; [eapply rows_first; eassumption |].
    split; [eapply rows_last; eassumption |].
    split; [eapply rows_consecutive; eassumption |].
    split; [eapply rows_ascending; eassumption |].
    split; [eapply rows_cover; eassumption |].
    eapply rows_nodup; eassumption.
Qed.

Lemma generate_lookup_table_year_witness :
  (1 <= 2024 <= 9998)%Z /\
  (Z.to_nat (days_in_year 2024) < 400)%nat /\
  exists rows : list table_row,
    generate_lookup_table 400 40 2024
    = (Returned tt, header :: map DataLine rows) /\
    List.length rows = (if is_leap 2024 then 366 else 365)%nat /\
    (forall (i : nat) (r : table_row),
        nth_error rows i = Some r ->
        row_of_day 40 2024 (Z.of_nat i + 1) r) /\
    (exists r, nth_error rows 0 = Some r /\ row_date r = mkdate 2024 1 1) /\
    (exists r, nth_error rows (List.length rows - 1) = Some r /\
               row_date r = mkdate 2024 12 31) /\
    (forall (i : nat) (r r' : table_row),
        nth_error rows i = Some r -> nth_error rows (S i) = Some r' ->
        add_one_day (row_date r) = Returned (row_date r')) /\
    (forall (i j : nat) (r r' : table_row),
        (i < j)%nat -> nth_error rows i = Some r -> nth_error rows j = Some r' ->
        date_ltb (row_date r) (row_date r') = true) /\
    (forall d : date,
        valid_date d -> year d = 2024%Z ->
        exists r, nth_error rows (Z.to_nat (yday d - 1)) = Some r /\
                  row_date r = d) /\
    NoDup (map row_date rows).
Proof.
  split; [lia |]. split; [vm_compute; lia |].
  apply (generate_lookup_table_year 40 2024 400); [lia | vm_compute; lia].
Defined.

(** C5 as stated fails outside the years of [datetime.date]: for year 0
    the constructor [date(year, 1, 1)] raises [ValueError], and for year
    9999 [date(year + 1, 1, 1)] does; only the header has been written, and
    no budget of loop steps makes the call return. *)
Lemma generate_lookup_table_year_0_raises :
  generate_lookup_table 400 0 0 = (Raised ValueError, [header]) /\
  generate_lookup_table 400 0 9999 = (Raised ValueError, [header]) /\
  forall fuel : nat,
    ~ exists rows : list table_row,
        generate_lookup_table fuel 0 0
        = (Returned tt, header :: map DataLine rows).
Proof.
  split; [reflexivity |]. split; [reflexivity |].
  intros fuel (rows & E).
  unfold generate_lookup_table, wbind, writerow, wlift, date_new in E.
  cbn in E. discriminate E.
Qed.

(** ** The declination over the year *)

Section YearRange.

Open Scope R_scope.

Lemma all_days_day (p : list bounds -> Z -> bool) (n : Z) :
  all_days p = true -> (1 <= n <= 366)%Z -> p quadrant_table n = true.
Proof.
  unfold all_days. cbv zeta. intros A H.
  rewrite forallb_forall in A. apply A.
  unfold year_days. replace n with (Z.of_nat (Z.to_nat n)) by lia.
  apply in_map, in_seq. lia.
Qed.

Lemma declination_series_range (n : Z) :
  (1 <= n <= 366)%Z ->
  -0.40887 <= declination_series (day_angle n) <= 0.40938.
Proof.
  intros H.
  pose proof (all_days_day range_ok n range_ok_all H) as C.
  unfold range_ok in C. apply andb_true_iff in C. destruct C as [C1 C2].
  apply Z.leb_le in C1, C2. apply IZR_le in C1, C2.
  rewrite mult_IZR in C1, C2.
  pose proof (declination_bounds_sound n ltac:(lia)) as [L U].
  unfold scale in *. lra.
Qed.

Lemma horizon_enclosed :
  IZR horizon_lo < 1000000 * IZR scale * (0.833 * (PI / 180)) < IZR horizon_hi.
Proof.
  pose proof PI_lower. pose proof PI_upper.
  unfold horizon_lo, horizon_hi, scale. lra.
Qed.

Lemma declination_series_off_horizon (n : Z) :
  (1 <= n <= 366)%Z ->
  declination_series (day_angle n) <> 0.833 * (PI / 180) /\
  declination_series (day_angle n) <> - (0.833 * (PI / 180)).
Proof.
  intros H.
  pose proof (all_days_day off_horizon n off_horizon_all H) as C.
  pose proof (declination_bounds_sound n ltac:(lia)) as [L U].
  pose proof horizon_enclosed as [HL HU].
  unfold off_horizon in C.
  rewrite !orb_true_iff, andb_true_iff, !Z.ltb_lt in C.
  assert (K : 0 < 1000000 * IZR scale) by (unfold scale; lra).
  set (k := 1000000 * IZR scale) in *.
  set (x := declination_series (day_angle n)) in *.
  assert (Hh : 0 < 0.833 * (PI / 180)) by (pose proof PI_RGT_0; lra).
  set (h := 0.833 * (PI / 180)) in *.
  assert (Kh : 0 < k * h) by (apply Rmult_lt_0_compat; assumption).
  destruct C as [[C | [C1 C2]] | C].
  - apply IZR_lt in C. rewrite opp_IZR in C. split; intros E; rewrite E in *; nra.
  - apply IZR_lt in C1, C2. rewrite opp_IZR in C1.
    split; intros E; rewrite E in *; nra.
  - apply IZR_lt in C. split; intros E; rewrite E in *; nra.
Qed.

Lemma yday_366 (d : date) : valid_date d -> (1 <= yday d <= 366)%Z.
Proof.
  intros V. pose proof (yday_range d V) as R.
  unfold days_in_year in R. destruct (is_leap (year d)); lia.
Qed.

Lemma declination_lo_june_21 :
  declination_lo quadrant_table 172 = 409315417570163682%Z.
Proof. vm_compute. reflexivity. Qed.

Lemma declination_series_june_21 :
  0.409315 <= declination_series (day_angle 172).
Proof.
  pose proof (declination_bounds_sound 172 ltac:(lia)) as [L _].
  rewrite declination_lo_june_21 in L. unfold scale in L. lra.
Qed.

End YearRange.

(** ** Daylight from the hour angle *)

Section Daylight.

Open Scope R_scope.

Lemma deg2rad_horizon : deg2rad (-0.833) = - (0.833 * (PI / 180)).
Proof. unfold deg2rad. lra. Qed.

Lemma horizon_range : 0.0145385 < 0.833 * (PI / 180) < 0.0145386.
Proof. pose proof PI_lower. pose proof PI_upper. lra. Qed.

Lemma sin_horizon : sin (deg2rad (-0.833)) = - sin (0.833 * (PI / 180)).
Proof. rewrite deg2rad_horizon. apply sin_neg. Qed.

Lemma quotient_inside (num den : R) :
  0 < den -> - den < num < den -> -1 < num / den < 1.
Proof.
  intros D [L U]. split.
  - apply Rmult_lt_reg_r with den; [exact D |].
    replace (num / den * den) with num by (field; lra). lra.
  - apply Rmult_lt_reg_r with den; [exact D |].
    replace (num / den * den) with num by (field; lra). lra.
Qed.

Lemma quotient_below (num den : R) :
  0 < den -> num <= - den -> num / den <= -1.
Proof.
  intros D L.
  apply Rmult_le_reg_r with den; [exact D |].
  replace (num / den * den) with num by (field; lra). lra.
Qed.

(** The three outcomes on a finite quotient. *)
Lemma calculate_daylight_finite (lat_deg : R) (d : date) (delta : R) :
  solar_declination_rad d = Returned delta ->
  cos_H0_den (deg2rad lat_deg) delta <> 0 ->
  let c := cos_H0_num (deg2rad lat_deg) delta (deg2rad (-0.833))
           / cos_H0_den (deg2rad lat_deg) delta in
  (c <= -1 -> calculate_daylight lat_deg d = Returned (Finite 24, PolarDay)) /\
  (1 <= c -> calculate_daylight lat_deg d = Returned (Finite 0, PolarNight)) /\
  (-1 < c < 1 ->
   calculate_daylight lat_deg d
   = Returned (Finite (2 * rad2deg (acos c) / 15), NormalDay)).
Proof.
  intros E D c.
  rewrite (calculate_daylight_unfold lat_deg d delta E). cbv zeta.
  rewrite (np_div_finite _ _ D). fold c.
  repeat split; intros Hc.
  - apply np_le_finite in Hc. rewrite Hc. reflexivity.
  - assert (L : np_le (Finite c) (-1) = false) by (apply np_le_finite_false; lra).
    apply np_ge_finite in Hc. rewrite L, Hc. reflexivity.
  - assert (L : np_le (Finite c) (-1) = false) by (apply np_le_finite_false; lra).
    assert (G : np_ge (Finite c) 1 = false) by (apply np_ge_finite_false; lra).
    rewrite L, G, (np_arccos_inside c Hc). reflexivity.
Qed.

(** The cosine stays above the sine of the horizon correction while the
    angle stays short of a right angle by more than the correction. *)
Lemma cos_above_horizon (u b : R) :
  - b <= u <= b -> b < PI / 2 - 0.833 * (PI / 180) ->
  sin (0.833 * (PI / 180)) < cos u.
Proof.
  intros [L U] B. pose proof horizon_range as [H1 H2]. pose proof PI_RGT_0 as P.
  assert (A : forall v, 0 <= v <= b -> sin (0.833 * (PI / 180)) < cos v).
  { intros v [V1 V2]. rewrite <- (sin_shift v).
    apply sin_increasing_1; lra. }
  destruct (Rle_dec 0 u) as [Q | Q].
  - apply A. lra.
  - rewrite <- cos_neg. apply A. lra.
Qed.

Lemma normal_day_quotient (phi delta : R) :
  0 < cos phi -> 0 < cos delta ->
  sin (0.833 * (PI / 180)) < cos (phi + delta) ->
  sin (0.833 * (PI / 180)) < cos (phi - delta) ->
  0 < cos_H0_den phi delta /\
  -1 < cos_H0_num phi delta (deg2rad (-0.833)) / cos_H0_den phi delta < 1.
Proof.
  intros Cp Cd A B.
  pose proof horizon_range as [H1 H2]. pose proof PI_RGT_0 as P.
  assert (S0 : 0 < sin (0.833 * (PI / 180))) by (apply sin_gt_0; lra).
  assert (D : 0 < cos_H0_den phi delta)
    by (unfold cos_H0_den; apply Rmult_lt_0_compat; assumption).
  split; [exact D |].
  apply quotient_inside; [exact D |].
  unfold cos_H0_num, cos_H0_den. rewrite sin_horizon.
  rewrite cos_plus in A. rewrite cos_minus in B. lra.
Qed.

Lemma polar_day_quotient (phi delta : R) :
  0 < cos phi -> 0 < cos delta ->
  cos (phi + delta) <= sin (0.833 * (PI / 180)) ->
  cos_H0_den phi delta <> 0 /\
  cos_H0_num phi delta (deg2rad (-0.833)) / cos_H0_den phi delta <= -1.
Proof.
  intros Cp Cd A.
  assert (D : 0 < cos_H0_den phi delta)
    by (unfold cos_H0_den; apply Rmult_lt_0_compat; assumption).
  split; [lra |].
  apply quotient_below; [exact D |].
  unfold cos_H0_num, cos_H0_den. rewrite sin_horizon.
  rewrite cos_plus in A. lra.
Qed.

Lemma declination_of_date (d : date) :
  valid_date d ->
  exists delta : R,
    solar_declination_rad d = Returned delta /\
    -0.40887 <= delta <= 0.40938 /\
    delta <> 0.833 * (PI / 180) /\ delta <> - (0.833 * (PI / 180)) /\
    0 < cos delta.
Proof.
  intros V. exists (declination_series (day_angle (yday d))).
  pose proof (yday_366 d V) as Y.
  pose proof (declination_series_range _ Y) as R.
  destruct (declination_series_off_horizon _ Y) as [N1 N2].
  split; [apply solar_declination_rad_yday, V |].
  split; [exact R |]. split; [exact N1 |]. split; [exact N2 |].
  pose proof PI2_1. apply cos_gt_0; lra.
Qed.

End Daylight.

(** C7, as the code has it: for every latitude of at most 65.7 degrees in
    absolute value and every valid date, [calculate_daylight] returns
    Normal Day with a duration strictly between 0 and 24 hours.  (The
    horizon correction of 0.833 degrees starts the polar day below 66.5
    degrees.) *)
Theorem calculate_daylight_mid_latitudes (lat_deg : R) (d : date) :
  (Rabs lat_deg <= 65.7)%R ->
  valid_date d ->
  exists hours : R,
    calculate_daylight lat_deg d = Returned (Finite hours, NormalDay) /\
    (0 < hours < 24)%R.
Proof.
  intros A V. apply Rabs_le_both in A.
  destruct (declination_of_date d V) as (delta & E & R & _ & _ & Cd).
  pose proof PI_lower as PL. pose proof PI_upper as PU.
  set (phi := deg2rad lat_deg).
  assert (P : (- (65.7 * (PI / 180)) <= phi <= 65.7 * (PI / 180))%R).
  { unfold phi, deg2rad.
    assert (K : (0 <= PI / 180)%R) by lra.
    pose proof (Rmult_le_compat_r _ _ _ K (proj1 A)).
    pose proof (Rmult_le_compat_r _ _ _ K (proj2 A)). lra. }
  assert (Cp : (0 < cos phi)%R) by (apply cos_gt_0; lra).
  assert (B : (65.7 * (PI / 180) + 0.40938 < PI / 2 - 0.833 * (PI / 180))%R) by lra.
  assert (C1 : (sin (0.833 * (PI / 180)) < cos (phi + delta))%R).
  { apply (cos_above_horizon _ (65.7 * (PI / 180) + 0.40938)); [lra | exact B]. }
  assert (C2 : (sin (0.833 * (PI / 180)) < cos (phi - delta))%R).
  { apply (cos_above_horizon _ (65.7 * (PI / 180) + 0.40938)); [lra | exact B]. }
  destruct (normal_day_quotient phi delta Cp Cd C1 C2) as [D Q].
  destruct (calculate_daylight_finite lat_deg d delta E) as (_ & _ & N).
  { fold phi. lra. }
  fold phi in N. rewrite (N Q).
  eexists. split; [reflexivity |].
  apply hours_of_angle, acos_bound_lt, Q.
Qed.

Lemma calculate_daylight_mid_latitudes_witness :
  (Rabs 40 <= 65.7)%R /\
  valid_date (mkdate 2024 6 21) /\
  exists hours : R,
    calculate_daylight 40 (mkdate 2024 6 21) = Returned (Finite hours, NormalDay) /\
    (0 < hours < 24)%R.
Proof.
  assert (A : (Rabs 40 <= 65.7)%R) by (apply Rabs_le; lra).
  split; [exact A |]. split; [reflexivity |].
  apply (calculate_daylight_mid_latitudes 40 (mkdate 2024 6 21) A). reflexivity.
Defined.

(** C7 as stated fails: at latitude 66 degrees, inside 66.5, the 21st of
    June is a Polar Day of 24 hours. *)
Lemma calculate_daylight_66_june_21 :
  (Rabs 66 < 66.5)%R /\
  valid_date (mkdate 2023 6 21) /\
  calculate_daylight 66 (mkdate 2023 6 21) = Returned (Finite 24, PolarDay).
Proof.
  split; [apply Rabs_def1; lra |]. split; [reflexivity |].
  assert (V : valid_date (mkdate 2023 6 21)) by reflexivity.
  pose proof (solar_declination_rad_yday _ V) as E.
  change (yday (mkdate 2023 6 21)) with 172%Z in E.
  set (delta := declination_series (day_angle 172)) in *.
  pose proof declination_series_june_21 as L. fold delta in L.
  pose proof (declination_series_range 172 ltac:(lia)) as [_ U]. fold delta in U.
  pose proof PI_lower as PL. pose proof PI_upper as PU.
  set (phi := deg2rad 66).
  assert (P : phi = (66 * (PI / 180))%R) by reflexivity.
  assert (Cp : (0 < cos phi)%R) by (apply cos_gt_0; lra).
  assert (Cd : (0 < cos delta)%R) by (apply cos_gt_0; lra).
  assert (C : (cos (phi + delta) <= sin (0.833 * (PI / 180)))%R).
  { rewrite <- cos_shift. apply cos_decr_1; lra. }
  destruct (polar_day_quotient phi delta Cp Cd C) as [D Q].
  destruct (calculate_daylight_finite 66 (mkdate 2023 6 21) delta E D) as (N & _).
  apply N, Q.
Qed.

(** ** A zero denominator

    The exact denominator vanishes at the latitudes 90 + 180 k degrees.
    There the code divides by a cosine of magnitude near 10^-16 and the
    model by zero; in both the quotient lies beyond -1 or 1, and the lemmas
    of this section serve only what does not depend on its sign: the call
    returns, and the day is a polar one. *)

Section ZeroDenominator.

Open Scope R_scope.

Lemma calculate_daylight_zero_den (lat_deg : R) (d : date) (delta : R) :
  solar_declination_rad d = Returned delta ->
  cos_H0_den (deg2rad lat_deg) delta = 0 ->
  let num := cos_H0_num (deg2rad lat_deg) delta (deg2rad (-0.833)) in
  (0 < num ->
   calculate_daylight lat_deg d = Returned (Finite 0, PolarNight)) /\
  (num < 0 ->
   calculate_daylight lat_deg d = Returned (Finite 24, PolarDay)) /\
  (num = 0 ->
   calculate_daylight lat_deg d = Returned (NaN, NormalDay)).
Proof.
  intros E D num.
  rewrite (calculate_daylight_unfold lat_deg d delta E). cbv zeta.
  rewrite D. fold num.
  repeat split; intros Hn.
  - rewrite (np_div_zero_pos _ Hn). reflexivity.
  - rewrite (np_div_zero_neg _ Hn). reflexivity.
  - rewrite Hn, np_div_zero_zero. reflexivity.
Qed.

Lemma sin_at_zero_cos (phi : R) : cos phi = 0 -> sin phi = 1 \/ sin phi = -1.
Proof.
  intros C. pose proof (sin2_cos2 phi) as S. rewrite C in S.
  unfold Rsqr in S.
  assert (Q : (sin phi - 1) * (sin phi + 1) = 0) by lra.
  apply Rmult_integral in Q. destruct Q; [left | right]; lra.
Qed.

(** On a valid date the numerator is not zero where the denominator is. *)
Lemma numerator_nonzero (phi delta : R) :
  cos phi = 0 ->
  -0.40887 <= delta <= 0.40938 ->
  delta <> 0.833 * (PI / 180) -> delta <> - (0.833 * (PI / 180)) ->
  cos_H0_num phi delta (deg2rad (-0.833)) <> 0.
Proof.
  intros C R N1 N2 Z. unfold cos_H0_num in Z. rewrite sin_horizon in Z.
  pose proof horizon_range as [H1 H2]. pose proof PI2_1 as P.
  destruct (sin_at_zero_cos phi C) as [S | S]; rewrite S in Z.
  - apply N2. apply sin_inj; [lra | lra |]. rewrite sin_neg. lra.
  - apply N1. apply sin_inj; [lra | lra |]. lra.
Qed.

End ZeroDenominator.

(** C3: for every latitude and valid date the result of
    [calculate_daylight] has duration 24.0 exactly when the condition is
    Polar Day, duration 0.0 exactly when it is Polar Night, and a duration
    strictly between 0 and 24 when it is Normal Day. *)
Theorem calculate_daylight_invariant (lat_deg : R) (d : date) :
  valid_date d ->
  exists (hours : npfloat) (cond : condition),
    calculate_daylight lat_deg d = Returned (hours, cond) /\
    (hours = Finite 24 <-> cond = PolarDay) /\
    (hours = Finite 0 <-> cond = PolarNight) /\
    (cond = NormalDay -> exists h : R, hours = Finite h /\ (0 < h < 24)%R).
Proof.
  intros V.
  destruct (declination_of_date d V) as (delta & E & Rg & N1 & N2 & Cd).
  set (phi := deg2rad lat_deg).
  assert (polar_day :
            calculate_daylight lat_deg d = Returned (Finite 24, PolarDay) ->
            exists (hours : npfloat) (cond : condition),
              calculate_daylight lat_deg d = Returned (hours, cond) /\
              (hours = Finite 24 <-> cond = PolarDay) /\
              (hours = Finite 0 <-> cond = PolarNight) /\
              (cond = NormalDay ->
               exists h : R, hours = Finite h /\ (0 < h < 24)%R)).
  { intros ->. exists (Finite 24), PolarDay.
    repeat split; try reflexivity; try discriminate.
    intros Q. injection Q as Q. lra. }
  assert (polar_night :
            calculate_daylight lat_deg d = Returned (Finite 0, PolarNight) ->
            exists (hours : npfloat) (cond : condition),
              calculate_daylight lat_deg d = Returned (hours, cond) /\
              (hours = Finite 24 <-> cond = PolarDay) /\
              (hours = Finite 0 <-> cond = PolarNight) /\
              (cond = NormalDay ->
               exists h : R, hours = Finite h /\ (0 < h < 24)%R)).
  { intros ->. exists (Finite 0), PolarNight.
    repeat split; try reflexivity; try discriminate.
    intros Q. injection Q as Q. lra. }
  destruct (Req_dec_T (cos phi) 0) as [Z | NZ].
  - assert (D : cos_H0_den phi delta = 0%R) by (unfold cos_H0_den; rewrite Z; lra).
    pose proof (numerator_nonzero phi delta Z Rg N1 N2) as NN.
    destruct (calculate_daylight_zero_den lat_deg d delta E D) as (Pos & Neg & _).
    destruct (Rlt_dec 0 (cos_H0_num phi delta (deg2rad (-0.833)))) as [P | P].
    + apply polar_night, Pos, P.
    + apply polar_day, Neg. fold phi. lra.
  - assert (D : cos_H0_den phi delta <> 0%R).
    { unfold cos_H0_den. intros Q. apply Rmult_integral in Q. destruct Q; lra. }
    destruct (calculate_daylight_finite lat_deg d delta E D) as (Low & High & Mid).
    fold phi in Low, High, Mid.
    set (c := (cos_H0_num phi delta (deg2rad (-0.833)) / cos_H0_den phi delta)%R) in *.
    destruct (Rle_dec c (-1)) as [L | L]; [apply polar_day, Low, L |].
    destruct (Rle_dec 1 c) as [H | H]; [apply polar_night, High, H |].
    assert (I : (-1 < c < 1)%R) by lra.
    rewrite (Mid I).
    pose proof (hours_of_angle _ (acos_bound_lt c I)) as B.
    eexists; exists NormalDay. split; [reflexivity |].
    repeat split; try discriminate.
    + intros Q. injection Q as Q. lra.
    + intros Q. injection Q as Q. lra.
    + intros _. eexists. split; [reflexivity | exact B].
Qed.

Lemma calculate_daylight_invariant_witness :
  valid_date (mkdate 2024 12 21) /\
  exists (hours : npfloat) (cond : condition),
    calculate_daylight 80 (mkdate 2024 12 21) = Returned (hours, cond) /\
    (hours = Finite 24 <-> cond = PolarDay) /\
    (hours = Finite 0 <-> cond = PolarNight) /\
    (cond = NormalDay -> exists h : R, hours = Finite h /\ (0 < h < 24)%R).
Proof.
  split; [reflexivity |].
  apply (calculate_daylight_invariant 80 (mkdate 2024 12 21)). reflexivity.
Defined.

(** ** The equator *)

Section Equator.

Open Scope R_scope.

Lemma cos_right_plus (x : R) : cos (PI / 2 + x) = - sin x.
Proof. rewrite (sin_cos x). lra. Qed.

Lemma sin_lower (u : R) : 0 <= u <= PI -> u - u * u * u / 6 <= sin u.
Proof.
  intros [U1 U2]. pose proof (sin_bound u 0 U1 U2) as [L _].
  unfold sin_approx, sin_term in L. simpl in L. lra.
Qed.

Lemma cos_lower (x : R) : - PI / 2 <= x <= PI / 2 -> 1 - x * x / 2 <= cos x.
Proof.
  intros [X1 X2]. pose proof (cos_bound x 0 X1 X2) as [L _].
  unfold cos_approx, cos_term in L. simpl in L. lra.
Qed.

(** The hour angle at the equator exceeds a right angle by between the
    horizon correction and 0.01587 radians. *)
Lemma equator_hour_angle (delta : R) :
  -0.40887 <= delta <= 0.40938 ->
  let c := - sin (0.833 * (PI / 180)) / cos delta in
  -1 < c < 1 /\
  PI / 2 + 0.833 * (PI / 180) <= acos c <= PI / 2 + 0.01587.
Proof.
  intros R c.
  pose proof horizon_range as [H1 H2].
  pose proof PI_lower as PL. pose proof PI_upper as PU.
  set (h := 0.833 * (PI / 180)) in *.
  assert (Sh0 : 0 < sin h) by (apply sin_gt_0; lra).
  assert (Sh1 : sin h < h) by (apply sin_lt_x; lra).
  assert (Cd1 : cos delta <= 1) by apply COS_bound.
  assert (Cd0 : 0.9162 <= cos delta).
  { pose proof (cos_lower delta ltac:(lra)) as L. nra. }
  assert (Q : sin h <= - c * cos delta <= sin h).
  { unfold c. split; right; field; lra. }
  assert (C1 : c <= - sin h) by nra.
  assert (C2 : - 0.015869 < c) by nra.
  assert (I : -1 < c < 1) by lra.
  split; [exact I |].
  pose proof (acos_bound_lt c I) as [A0 A1].
  pose proof (cos_acos c ltac:(lra)) as CA.
  split.
  - destruct (Rle_dec (PI / 2 + h) (acos c)) as [G | G]; [exact G |].
    exfalso.
    assert (D : cos (PI / 2 + h) < cos (acos c))
      by (apply cos_decreasing_1; lra).
    rewrite cos_right_plus, CA in D. lra.
  - destruct (Rle_dec (acos c) (PI / 2 + 0.01587)) as [G | G]; [exact G |].
    exfalso.
    assert (D : cos (acos c) < cos (PI / 2 + 0.01587))
      by (apply cos_decreasing_1; lra).
    rewrite cos_right_plus, CA in D.
    pose proof (sin_lower 0.01587 ltac:(lra)) as SL. lra.
Qed.

Lemma calculate_daylight_equator_hours (d : date) :
  valid_date d ->
  exists hours : R,
    calculate_daylight 0 d = Returned (Finite hours, NormalDay) /\
    12.111 < hours < 12.122.
Proof.
  intros V.
  destruct (declination_of_date d V) as (delta & E & Rg & _ & _ & Cd).
  destruct (equator_hour_angle delta Rg) as [I [A1 A2]].
  assert (P0 : deg2rad 0 = 0) by (unfold deg2rad; lra).
  assert (D : cos_H0_den (deg2rad 0) delta <> 0).
  { unfold cos_H0_den. rewrite P0, cos_0. lra. }
  destruct (calculate_daylight_finite 0 d delta E D) as (_ & _ & N).
  assert (Q : cos_H0_num (deg2rad 0) delta (deg2rad (-0.833))
              / cos_H0_den (deg2rad 0) delta
              = - sin (0.833 * (PI / 180)) / cos delta).
  { unfold cos_H0_num, cos_H0_den. rewrite P0, sin_horizon, cos_0, sin_0.
    field. lra. }
  rewrite Q in N. rewrite (N I).
  eexists. split; [reflexivity |].
  pose proof PI_lower as PL. pose proof PI_upper as PU.
  set (a := acos (- sin (0.833 * (PI / 180)) / cos delta)) in *.
  unfold rad2deg.
  replace (2 * (a * (180 / PI)) / 15) with (24 * (a / PI)) by (field; lra).
  assert (L : 0.504627 < a / PI).
  { apply Rmult_lt_reg_r with PI; [lra |].
    replace (a / PI * PI) with a by (field; lra). lra. }
  assert (U : a / PI < 0.505083).
  { apply Rmult_lt_reg_r with PI; [lra |].
    replace (a / PI * PI) with a by (field; lra). lra. }
  lra.
Qed.

End Equator.

(** C8, as the code has it: at latitude 0, for every valid date,
    [calculate_daylight] returns Normal Day with a duration between 12.111
    and 12.122 hours; the horizon correction of 0.833 degrees adds about
    0.11 hours to the 12 hours of the geometric day. *)
Theorem calculate_daylight_equator (d : date) :
  valid_date d ->
  exists hours : R,
    calculate_daylight 0 d = Returned (Finite hours, NormalDay) /\
    (12.111 < hours < 12.122)%R /\
    (Rabs (hours - 12.12) < 0.02)%R.
Proof.
  intros V. destruct (calculate_daylight_equator_hours d V) as (hours & E & B).
  exists hours. split; [exact E |]. split; [exact B |].
  apply Rabs_def1; lra.
Qed.

Lemma calculate_daylight_equator_witness :
  valid_date (mkdate 2023 3 21) /\
  exists hours : R,
    calculate_daylight 0 (mkdate 2023 3 21) = Returned (Finite hours, NormalDay) /\
    (12.111 < hours < 12.122)%R /\
    (Rabs (hours - 12.12) < 0.02)%R.
Proof.
  split; [reflexivity |].
  apply (calculate_daylight_equator (mkdate 2023 3 21)). reflexivity.
Defined.

(** C8 as stated fails: at latitude 0 on the 21st of March 2023 the
    duration is more than 0.11 hours away from 12.0, not within 0.02. *)
Lemma calculate_daylight_equator_not_12 :
  exists hours : R,
    calculate_daylight 0 (mkdate 2023 3 21) = Returned (Finite hours, NormalDay) /\
    (0.111 < hours - 12)%R /\
    ~ (Rabs (hours - 12) <= 0.02)%R.
Proof.
  destruct (calculate_daylight_equator_hours (mkdate 2023 3 21)) as (hours & E & B);
    [reflexivity |].
  exists hours. split; [exact E |]. split; [lra |].
  intros A. apply Rabs_le_both in A. lra.
Qed.

(** * Further properties of the script *)

(** ** The day of the year *)

Section DayOfYear.

Open Scope Z_scope.

Lemma date_ltb_asym (a b : date) : date_ltb a b = true -> date_ltb b a = false.
Proof.
  unfold date_ltb. intros H.
  destruct (Z.ltb_spec (year a) (year b)), (Z.ltb_spec (year b) (year a)),
    (Z.eqb_spec (year a) (year b)), (Z.eqb_spec (year b) (year a)),
    (Z.ltb_spec (month a) (month b)), (Z.ltb_spec (month b) (month a)),
    (Z.eqb_spec (month a) (month b)), (Z.eqb_spec (month b) (month a)),
    (Z.ltb_spec (day a) (day b)), (Z.ltb_spec (day b) (day a));
    cbn in *; try reflexivity; try discriminate; lia.
Qed.

Lemma yday_first_day (y : Z) : yday (mkdate y 1 1) = 1.
Proof. unfold yday, days_before_month. cbn [year month day]. month_simpl. lia. Qed.

Lemma valid_year (d : date) : valid_date d -> 1 <= year d <= 9999.
Proof. intros V. apply (valid_date_fields d V). Qed.

Lemma date_eta (d : date) : d = mkdate (year d) (month d) (day d).
Proof. destruct d. reflexivity. Qed.

Lemma yday_one_iff (d : date) :
  valid_date d -> (yday d = 1 <-> month d = 1 /\ day d = 1).
Proof.
  intros V. pose proof (valid_year d V) as Y. split.
  - intros E.
    assert (Q : d = mkdate (year d) 1 1).
    { apply yday_inj; [exact V | apply valid_first_day, Y | reflexivity |].
      rewrite yday_first_day. exact E. }
    rewrite Q. cbn. split; reflexivity.
  - intros [M D]. rewrite (date_eta d), M, D. apply yday_first_day.
Qed.

Lemma yday_last_iff (d : date) :
  valid_date d ->
  (yday d = days_in_year (year d) <-> month d = 12 /\ day d = 31).
Proof.
  intros V. pose proof (valid_year d V) as Y. split.
  - intros E.
    assert (Q : d = mkdate (year d) 12 31).
    { apply yday_inj; [exact V | apply valid_last_day, Y | reflexivity |].
      rewrite yday_last_day. exact E. }
    rewrite Q. cbn. split; reflexivity.
  - intros [M D]. rewrite (date_eta d) at 1. rewrite M, D. apply yday_last_day.
Qed.

Lemma date_ltb_yday (d1 d2 : date) :
  valid_date d1 -> valid_date d2 -> year d1 = year d2 ->
  (date_ltb d1 d2 = true <-> yday d1 < yday d2).
Proof.
  intros V1 V2 Y. split; [| apply yday_lt_date_ltb; assumption].
  intros L.
  destruct (Z.lt_trichotomy (yday d1) (yday d2)) as [C | [C | C]]; [exact C | |].
  - rewrite (yday_inj d1 d2 V1 V2 Y C), date_ltb_irrefl in L. discriminate.
  - pose proof (yday_lt_date_ltb d2 d1 V2 V1 (eq_sym Y) C) as G.
    rewrite (date_ltb_asym d1 d2 L) in G. discriminate.
Qed.

End DayOfYear.

(** X1: for a valid date ["%j"] is a string of three characters that [int]
    reads back without error; the day number is 1 exactly on the 1st of
    January and 365 (366 in a leap year) exactly on the 31st of December. *)
Theorem day_of_year_ends (d : date) :
  (valid_date d ->
  exists n : Z,
    day_of_year d = Returned n /\
    String.length (strftime_j d) = 3%nat /\
    (n = 1 <-> month d = 1 /\ day d = 1) /\
    (n = (if is_leap (year d) then 366 else 365) <-> month d = 12 /\ day d = 31))%Z.
Proof.
  intros V. exists (yday d).
  split; [apply day_of_year_yday, V |].
  split; [reflexivity |].
  split; [apply yday_one_iff, V |].
  apply (yday_last_iff d V).
Qed.

Lemma day_of_year_ends_witness :
  (valid_date (mkdate 2024 12 31) /\
  exists n : Z,
    day_of_year (mkdate 2024 12 31) = Returned n /\
    String.length (strftime_j (mkdate 2024 12 31)) = 3%nat /\
    (n = 1 <-> month (mkdate 2024 12 31) = 1 /\ day (mkdate 2024 12 31) = 1) /\
    (n = (if is_leap (year (mkdate 2024 12 31)) then 366 else 365)
     <-> month (mkdate 2024 12 31) = 12 /\ day (mkdate 2024 12 31) = 31))%Z.
Proof.
  split; [reflexivity |].
  apply (day_of_year_ends (mkdate 2024 12 31)). reflexivity.
Defined.

(** X2: within one year the day number orders the dates as the calendar
    does, and two dates with the same day number are the same date. *)
Theorem day_of_year_order (d1 d2 : date) :
  (valid_date d1 -> valid_date d2 -> year d1 = year d2 ->
  exists n1 n2 : Z,
    day_of_year d1 = Returned n1 /\
    day_of_year d2 = Returned n2 /\
    (date_ltb d1 d2 = true <-> (n1 < n2)) /\
    (n1 = n2 <-> d1 = d2))%Z.
Proof.
  intros V1 V2 Y. exists (yday d1), (yday d2).
  split; [apply day_of_year_yday, V1 |].
  split; [apply day_of_year_yday, V2 |].
  split; [apply date_ltb_yday; assumption |].
  split; [apply yday_inj; assumption | intros ->; reflexivity].
Qed.

Lemma day_of_year_order_witness :
  (valid_date (mkdate 2023 2 28) /\ valid_date (mkdate 2023 3 1) /\
  year (mkdate 2023 2 28) = year (mkdate 2023 3 1) /\
  exists n1 n2 : Z,
    day_of_year (mkdate 2023 2 28) = Returned n1 /\
    day_of_year (mkdate 2023 3 1) = Returned n2 /\
    (date_ltb (mkdate 2023 2 28) (mkdate 2023 3 1) = true <-> (n1 < n2)) /\
    (n1 = n2 <-> mkdate 2023 2 28 = mkdate 2023 3 1))%Z.
Proof.
  split; [reflexivity |]. split; [reflexivity |]. split; [reflexivity |].
  apply (day_of_year_order (mkdate 2023 2 28) (mkdate 2023 3 1)); reflexivity.
Defined.

(** X3: the date that [d + timedelta(days=1)] gives the loop has the next
    day number in the same year, or is the 1st of January of the next year
    with day number 1 when [d] is the last day of its year. *)
Theorem day_of_year_next_day (d : date) :
  (valid_date d -> (year d < 9999) ->
  exists (n : Z) (d' : date),
    day_of_year d = Returned n /\
    add_one_day d = Returned d' /\
    valid_date d' /\
    date_ltb d d' = true /\
    ((n < (if is_leap (year d) then 366 else 365)) ->
     year d' = year d /\ day_of_year d' = Returned (n + 1)) /\
    (n = (if is_leap (year d) then 366 else 365) ->
     d' = mkdate (year d + 1) 1 1 /\ day_of_year d' = Returned 1))%Z.
Proof.
  intros V Y. pose proof (valid_year d V) as Yr.
  pose proof (yday_range d V) as R. unfold days_in_year in R.
  fold (days_in_year (year d)).
  exists (yday d).
  destruct (add_one_day_in_year d V Y) as [(L & d' & A & V' & Y' & D') | (L & A)].
  - exists d'. split; [apply day_of_year_yday, V |]. split; [exact A |].
    split; [exact V' |].
    split; [apply yday_lt_date_ltb; try assumption; [congruence | lia] |].
    split.
    + intros _. split; [exact Y' |]. rewrite (day_of_year_yday d' V'), D'. reflexivity.
    + intros E. lia.
  - assert (V' : valid_date (mkdate (year d + 1) 1 1)) by (apply valid_first_day; lia).
    exists (mkdate (year d + 1) 1 1).
    split; [apply day_of_year_yday, V |]. split; [exact A |].
    split; [exact V' |].
    split; [apply date_ltb_next_year; [exact V | reflexivity] |].
    split.
    + intros E. lia.
    + intros _. split; [reflexivity |].
      rewrite (day_of_year_yday _ V'), yday_first_day. reflexivity.
Qed.

Lemma day_of_year_next_day_witness :
  (valid_date (mkdate 2023 12 31) /\ (year (mkdate 2023 12 31) < 9999) /\
  exists (n : Z) (d' : date),
    day_of_year (mkdate 2023 12 31) = Returned n /\
    add_one_day (mkdate 2023 12 31) = Returned d' /\
    valid_date d' /\
    date_ltb (mkdate 2023 12 31) d' = true /\
    ((n < (if is_leap (year (mkdate 2023 12 31)) then 366 else 365)) ->
     year d' = year (mkdate 2023 12 31) /\ day_of_year d' = Returned (n + 1)) /\
    (n = (if is_leap (year (mkdate 2023 12 31)) then 366 else 365) ->
     d' = mkdate (year (mkdate 2023 12 31) + 1) 1 1 /\
     day_of_year d' = Returned 1))%Z.
Proof.
  split; [reflexivity |]. split; [reflexivity |].
  apply (day_of_year_next_day (mkdate 2023 12 31)); reflexivity.
Defined.

(** ** The report line of [main]: [fmt_hours] of the computed duration *)

Section Report.

Open Scope R_scope.

(** The three shapes of a result. *)
Lemma calculate_daylight_cases (lat_deg : R) (d : date) :
  valid_date d ->
  calculate_daylight lat_deg d = Returned (Finite 24, PolarDay) \/
  calculate_daylight lat_deg d = Returned (Finite 0, PolarNight) \/
  exists h : R,
    calculate_daylight lat_deg d = Returned (Finite h, NormalDay) /\ 0 < h < 24.
Proof.
  intros V.
  destruct (declination_of_date d V) as (delta & E & Rg & N1 & N2 & Cd).
  set (phi := deg2rad lat_deg).
  destruct (Req_dec_T (cos phi) 0) as [Z | NZ].
  - assert (D : cos_H0_den phi delta = 0) by (unfold cos_H0_den; rewrite Z; lra).
    pose proof (numerator_nonzero phi delta Z Rg N1 N2) as NN.
    destruct (calculate_daylight_zero_den lat_deg d delta E D) as (Pos & Neg & _).
    destruct (Rlt_dec 0 (cos_H0_num phi delta (deg2rad (-0.833)))) as [P | P].
    + right; left. apply Pos, P.
    + left. apply Neg. fold phi. lra.
  - assert (D : cos_H0_den phi delta <> 0).
    { unfold cos_H0_den. intros Q. apply Rmult_integral in Q. destruct Q; lra. }
    destruct (calculate_daylight_finite lat_deg d delta E D) as (Low & High & Mid).
    fold phi in Low, High, Mid.
    set (c := cos_H0_num phi delta (deg2rad (-0.833)) / cos_H0_den phi delta) in *.
    destruct (Rle_dec c (-1)) as [L | L]; [left; apply Low, L |].
    destruct (Rle_dec 1 c) as [H | H]; [right; left; apply High, H |].
    assert (I : -1 < c < 1) by lra.
    right; right. eexists. split; [apply Mid, I |].
    apply hours_of_angle, acos_bound_lt, I.
Qed.

(** What [fmt_hours] shows for a duration that is not negative. *)
Lemma fmt_hours_shown (hours : R) :
  0 <= hours ->
  exists H M : Z,
    fmt_hours (Finite hours)
    = Returned (str_of_int H ++ "h " ++ str_of_int M ++ "m")%string /\
    (0 <= M <= 59)%Z /\
    (Zfloor hours <= H <= Zfloor hours + 1)%Z /\
    (H = (Zfloor hours + 1)%Z -> M = 0%Z) /\
    Rabs (IZR (60 * H + M) - 60 * hours) <= 1 / 2 + 1 / 100000000000000.
Proof.
  intros P. rewrite (fmt_hours_finite hours P). cbv zeta.
  pose proof (minutes_range hours) as Rg.
  pose proof (Zfloor_bound hours) as [F1 F2].
  pose proof (minutes_error hours (Zfloor hours) ltac:(apply Rabs_def1; lra)) as Er.
  set (m := np_round (minute_fraction hours (Zfloor hours))) in *.
  apply Rabs_le_both in Er.
  destruct (Z.eqb_spec m 60) as [E | E].
  - exists (Zfloor hours + 1)%Z, 0%Z.
    split; [reflexivity |]. split; [lia |]. split; [lia |]. split; [reflexivity |].
    rewrite E in Er. rewrite plus_IZR, mult_IZR, plus_IZR.
    apply Rabs_le. lra.
  - exists (Zfloor hours), m.
    split; [reflexivity |]. split; [lia |]. split; [lia |]. split; [lia |].
    rewrite plus_IZR, mult_IZR. apply Rabs_le. lra.
Qed.

Lemma fmt_hours_whole (k : Z) :
  (0 <= k)%Z ->
  fmt_hours (Finite (IZR k))
  = Returned (str_of_int k ++ "h " ++ str_of_int 0 ++ "m")%string.
Proof.
  intros P. rewrite fmt_hours_finite by (apply IZR_le in P; exact P).
  cbv zeta. rewrite ZfloorZ.
  rewrite (minutes_nearest (IZR k) k 0)
    by (try apply Rabs_def1; simpl; lra).
  reflexivity.
Qed.

End Report.

(** X4: for every latitude and valid date the duration that
    [calculate_daylight] returns is one [fmt_hours] accepts: the report
    line is "{H}h {M}m" with H in 0..24 and M in 0..59, it is "24h 0m" on
    a Polar Day and "0h 0m" in a Polar Night, and H = 24 only with
    M = 0. *)
Theorem fmt_hours_of_daylight (lat_deg : R) (d : date) :
  valid_date d ->
  exists (hours : npfloat) (cond : condition) (H M : Z),
    calculate_daylight lat_deg d = Returned (hours, cond) /\
    fmt_hours hours
    = Returned (str_of_int H ++ "h " ++ str_of_int M ++ "m")%string /\
    (0 <= H <= 24)%Z /\ (0 <= M <= 59)%Z /\
    (H = 24%Z -> M = 0%Z) /\
    (cond = PolarDay -> fmt_hours hours = Returned "24h 0m"%string) /\
    (cond = PolarNight -> fmt_hours hours = Returned "0h 0m"%string).
Proof.
  intros V.
  destruct (calculate_daylight_cases lat_deg d V) as [E | [E | (h & E & B)]].
  - exists (Finite 24), PolarDay, 24%Z, 0%Z.
    pose proof (fmt_hours_whole 24 ltac:(lia)) as F.
    split; [exact E |]. split; [exact F |].
    repeat split; try lia; try discriminate. intros _. exact F.
  - exists (Finite 0), PolarNight, 0%Z, 0%Z.
    pose proof (fmt_hours_whole 0 ltac:(lia)) as F.
    split; [exact E |]. split; [exact F |].
    repeat split; try lia; try discriminate. intros _. exact F.
  - destruct (fmt_hours_shown h ltac:(lra)) as (H & M & F & RM & RH & C & _).
    assert (F0 : (0 <= Zfloor h)%Z) by (apply Zfloor_lub; simpl; lra).
    assert (F1 : (Zfloor h < 24)%Z).
    { apply lt_IZR. pose proof (Zfloor_bound h). lra. }
    exists (Finite h), NormalDay, H, M.
    split; [exact E |]. split; [exact F |].
    repeat split; try lia; discriminate.
Qed.

Lemma fmt_hours_of_daylight_witness :
  valid_date (mkdate 2024 6 21) /\
  exists (hours : npfloat) (cond : condition) (H M : Z),
    calculate_daylight 80 (mkdate 2024 6 21) = Returned (hours, cond) /\
    fmt_hours hours
    = Returned (str_of_int H ++ "h " ++ str_of_int M ++ "m")%string /\
    (0 <= H <= 24)%Z /\ (0 <= M <= 59)%Z /\
    (H = 24%Z -> M = 0%Z) /\
    (cond = PolarDay -> fmt_hours hours = Returned "24h 0m"%string) /\
    (cond = PolarNight -> fmt_hours hours = Returned "0h 0m"%string).
Proof.
  split; [reflexivity |].
  apply (fmt_hours_of_daylight 80 (mkdate 2024 6 21)). reflexivity.
Defined.

(** X5: for a duration [hours >= 0] the time shown, 60 H + M minutes, is
    within half a minute of the duration, up to the rounding of the product
    in binary64, which is below 10^-14 of a minute. *)
Theorem fmt_hours_accuracy (hours : R) :
  (0 <= hours)%R ->
  exists H M : Z,
    fmt_hours (Finite hours)
    = Returned (str_of_int H ++ "h " ++ str_of_int M ++ "m")%string /\
    (Rabs (IZR (60 * H + M) - 60 * hours) <= 1 / 2 + 1 / 100000000000000)%R.
Proof.
  intros P. destruct (fmt_hours_shown hours P) as (H & M & F & _ & _ & _ & A).
  exists H, M. split; [exact F | exact A].
Qed.

Lemma fmt_hours_accuracy_witness :
  (0 <= 14.8)%R /\
  exists H M : Z,
    fmt_hours (Finite 14.8)
    = Returned (str_of_int H ++ "h " ++ str_of_int M ++ "m")%string /\
    (Rabs (IZR (60 * H + M) - 60 * 14.8) <= 1 / 2 + 1 / 100000000000000)%R.
Proof.
  split; [lra | apply (fmt_hours_accuracy 14.8); lra].
Defined.

(** X6: on a negative duration [int] truncates toward zero, the minutes -
    [np.round] of the binary64 product (hours - h) * 60 - are between -60
    and 0 and within half a minute of the exact product up to its rounding,
    and the carry, which tests for 60 only, is not applied: -5.9999 hours
    is shown as "-5h -60m".  [nan] raises [ValueError] and an infinity
    [OverflowError]. *)
Theorem fmt_hours_negative (hours : R) :
  (hours < 0)%R ->
  (exists M : Z,
      M = np_round (round64 (round64 (hours - IZR (Zceil hours)) * 60))%R /\
      (-60 <= M <= 0)%Z /\
      (Rabs (IZR M - (hours - IZR (Zceil hours)) * 60)
       <= 1 / 2 + 1 / 100000000000000)%R /\
      fmt_hours (Finite hours)
      = Returned (str_of_int (Zceil hours) ++ "h " ++ str_of_int M ++ "m")%string) /\
  fmt_hours (Finite (-5.9999)) = Returned "-5h -60m"%string /\
  fmt_hours NaN = Raised ValueError /\
  fmt_hours PosInf = Raised OverflowError /\
  fmt_hours NegInf = Raised OverflowError.
Proof.
  assert (G : forall x : R,
             (x < 0)%R ->
             (-60 <= np_round (minute_fraction x (Zceil x)) <= 0)%Z /\
             (Rabs (IZR (np_round (minute_fraction x (Zceil x)))
                    - (x - IZR (Zceil x)) * 60)
              <= 1 / 2 + 1 / 100000000000000)%R /\
             fmt_hours (Finite x)
             = Returned (str_of_int (Zceil x) ++ "h "
                         ++ str_of_int (np_round (minute_fraction x (Zceil x)))
                         ++ "m")%string).
  { intros x N. pose proof (Zceil_bound x) as [C1 C2].
    assert (A : (Rabs (x - IZR (Zceil x)) < 1)%R) by (apply Rabs_def1; lra).
    destruct (minute_fraction_close x (Zceil x) A) as (_ & _ & Q).
    destruct Q as [Q1 Q2]; [lra |].
    assert (Rg : (-60 <= np_round (minute_fraction x (Zceil x)) <= 0)%Z).
    { split; [apply np_round_ge_int | apply np_round_le_int]; assumption. }
    split; [exact Rg |]. split; [apply minutes_error, A |].
    unfold fmt_hours, int_of_float. cbn [obind].
    destruct (Rle_dec 0 x) as [Q | _]; [lra |].
    destruct (Z.eqb_spec (np_round (minute_fraction x (Zceil x))) 60) as [E | _];
      [lia | reflexivity]. }
  intros N. split; [| split; [| repeat split]].
  - destruct (G hours N) as (Rg & Er & F). eexists. split; [reflexivity |].
    split; [exact Rg |]. split; [exact Er | exact F].
  - destruct (G (-5.9999)%R ltac:(lra)) as (_ & _ & F). rewrite F.
    assert (C : Zceil (-5.9999) = (-5)%Z) by (apply Zceil_eq; simpl; lra).
    rewrite C.
    rewrite (minutes_nearest (-5.9999) (-5) (-60))
      by (try apply Rabs_def1; simpl; lra).
    reflexivity.
Qed.

Lemma fmt_hours_negative_witness :
  (-0.5 < 0)%R /\
  (exists M : Z,
      M = np_round (round64 (round64 (-0.5 - IZR (Zceil (-0.5))) * 60))%R /\
      (-60 <= M <= 0)%Z /\
      (Rabs (IZR M - (-0.5 - IZR (Zceil (-0.5))) * 60)
       <= 1 / 2 + 1 / 100000000000000)%R /\
      fmt_hours (Finite (-0.5))
      = Returned (str_of_int (Zceil (-0.5)) ++ "h " ++ str_of_int M ++ "m")%string) /\
  fmt_hours (Finite (-5.9999)) = Returned "-5h -60m"%string /\
  fmt_hours NaN = Raised ValueError /\
  fmt_hours PosInf = Raised OverflowError /\
  fmt_hours NegInf = Raised OverflowError.
Proof.
  split; [lra | apply (fmt_hours_negative (-0.5)); lra].
Defined.

(** ** The declination through the year *)

Section Seasons.

Open Scope R_scope.

Lemma season_ok_all : all_days season_ok = true.
Proof. vm_compute. reflexivity. Qed.

Lemma trend_ok_all : all_days trend_ok = true.
Proof. vm_compute. reflexivity. Qed.

Lemma declination_scaled_lt (n m : Z) :
  (1 <= n)%Z -> (1 <= m)%Z ->
  (declination_hi quadrant_table n < declination_lo quadrant_table m)%Z ->
  declination_series (day_angle n) < declination_series (day_angle m).
Proof.
  intros Hn Hm L. apply IZR_lt in L.
  pose proof (declination_bounds_sound n Hn) as [_ U].
  pose proof (declination_bounds_sound m Hm) as [Lo _].
  unfold scale in *. lra.
Qed.

Lemma declination_series_sign (n : Z) :
  (1 <= n <= 366)%Z ->
  ((81 <= n <= 266)%Z -> 0 < declination_series (day_angle n)) /\
  ((n <= 80 \/ 267 <= n)%Z -> declination_series (day_angle n) < 0).
Proof.
  intros H.
  pose proof (all_days_day season_ok n season_ok_all H) as C.
  pose proof (declination_bounds_sound n ltac:(lia)) as [L U].
  unfold season_ok in C. unfold scale in *.
  destruct (Z.leb_spec 81 n), (Z.leb_spec n 266); cbn [andb] in C;
    apply Z.ltb_lt, IZR_lt in C; split; intros Q; try lia; lra.
Qed.

Lemma declination_series_step (n : Z) :
  (1 <= n < 366)%Z ->
  ((n < 173 \/ 356 <= n)%Z ->
   declination_series (day_angle n) < declination_series (day_angle (n + 1))) /\
  ((173 <= n < 356)%Z ->
   declination_series (day_angle (n + 1)) < declination_series (day_angle n)).
Proof.
  intros H.
  pose proof (all_days_day trend_ok n trend_ok_all ltac:(lia)) as C.
  unfold trend_ok in C.
  destruct (Z.leb_spec 366 n); [lia |].
  destruct (Z.leb_spec 173 n), (Z.ltb_spec n 356); cbn [andb] in C;
    apply Z.ltb_lt in C; split; intros Q; try lia;
    apply declination_scaled_lt; try lia; exact C.
Qed.

(** A function that rises at every step of a range of days rises across
    the range. *)
Lemma rising_range (f : Z -> R) (a b : Z) :
  (forall n, (a <= n < b)%Z -> f n < f (n + 1)%Z) ->
  forall n m, (a <= n)%Z -> (n < m)%Z -> (m <= b)%Z -> f n < f m.
Proof.
  intros Step n m An L Mb.
  replace m with (n + 1 + Z.of_nat (Z.to_nat (m - n - 1)))%Z by lia.
  assert (K : (n + 1 + Z.of_nat (Z.to_nat (m - n - 1)) <= b)%Z) by lia.
  revert K. generalize (Z.to_nat (m - n - 1)) as k. intros k.
  induction k as [| k IH]; intros K.
  - replace (n + 1 + Z.of_nat 0)%Z with (n + 1)%Z by lia. apply Step. lia.
  - apply Rlt_trans with (f (n + 1 + Z.of_nat k)%Z); [apply IH; lia |].
    replace (n + 1 + Z.of_nat (S k))%Z with (n + 1 + Z.of_nat k + 1)%Z by lia.
    apply Step. lia.
Qed.

Lemma declination_series_trend (n m : Z) :
  (1 <= n)%Z -> (n < m)%Z -> (m <= 366)%Z ->
  ((m <= 173)%Z ->
   declination_series (day_angle n) < declination_series (day_angle m)) /\
  ((173 <= n)%Z -> (m <= 356)%Z ->
   declination_series (day_angle m) < declination_series (day_angle n)) /\
  ((356 <= n)%Z ->
   declination_series (day_angle n) < declination_series (day_angle m)).
Proof.
  intros Hn L Hm. split; [| split].
  - intros Q.
    apply (rising_range (fun k => declination_series (day_angle k)) 1 173); try lia.
    intros k Hk. apply declination_series_step; lia.
  - intros Q1 Q2.
    assert (G : - declination_series (day_angle n) < - declination_series (day_angle m)).
    { apply (rising_range (fun k => - declination_series (day_angle k)) 173 356);
        try lia.
      intros k Hk. destruct (declination_series_step k ltac:(lia)) as [_ D].
      specialize (D ltac:(lia)). lra. }
    lra.
  - intros Q.
    apply (rising_range (fun k => declination_series (day_angle k)) 356 366); try lia.
    intros k Hk. apply declination_series_step; lia.
Qed.

Lemma declination_series_turn (g : R) :
  declination_series (g + 2 * PI) = declination_series g.
Proof.
  unfold declination_series.
  rewrite (cos_turns g 1 (g + 2 * PI)) by (simpl; ring).
  rewrite (sin_turns g 1 (g + 2 * PI)) by (simpl; ring).
  rewrite (cos_turns (2 * g) 2 (2 * (g + 2 * PI))) by (simpl; ring).
  rewrite (sin_turns (2 * g) 2 (2 * (g + 2 * PI))) by (simpl; ring).
  rewrite (cos_turns (3 * g) 3 (3 * (g + 2 * PI))) by (simpl; ring).
  rewrite (sin_turns (3 * g) 3 (3 * (g + 2 * PI))) by (simpl; ring).
  reflexivity.
Qed.

Lemma declination_series_wrap :
  declination_series (day_angle 366) = declination_series (day_angle 1).
Proof.
  replace (day_angle 366) with (day_angle 1 + 2 * PI)
    by (unfold day_angle; simpl; lra).
  apply declination_series_turn.
Qed.

(** Day 173 has the largest declination of the year and day 356 the
    smallest. *)
Lemma declination_series_extremes (n : Z) :
  (1 <= n <= 366)%Z ->
  declination_series (day_angle 356) <= declination_series (day_angle n)
  <= declination_series (day_angle 173).
Proof.
  intros H.
  set (f := fun k => declination_series (day_angle k)).
  change (f 356%Z <= f n <= f 173%Z).
  assert (T : forall a b : Z,
             (1 <= a)%Z -> (a < b)%Z -> (b <= 366)%Z ->
             ((b <= 173)%Z -> f a < f b) /\
             ((173 <= a)%Z -> (b <= 356)%Z -> f b < f a) /\
             ((356 <= a)%Z -> f a < f b))
    by (intros a b; apply declination_series_trend).
  assert (W : f 366%Z = f 1%Z) by apply declination_series_wrap.
  assert (A : f 1%Z < f 173%Z)
    by (apply (proj1 (T 1%Z 173%Z ltac:(lia) ltac:(lia) ltac:(lia))); lia).
  assert (B : f 356%Z < f 366%Z)
    by (apply (proj2 (proj2 (T 356%Z 366%Z ltac:(lia) ltac:(lia) ltac:(lia)))); lia).
  destruct (Z_lt_le_dec n 173) as [C1 | C1].
  - assert (U : f n < f 173%Z) by (apply (proj1 (T n 173%Z ltac:(lia) ltac:(lia) ltac:(lia))); lia).
    assert (L : f 1%Z <= f n).
    { destruct (Z.eq_dec n 1) as [-> | N]; [lra |].
      left. apply (proj1 (T 1%Z n ltac:(lia) ltac:(lia) ltac:(lia))); lia. }
    lra.
  - destruct (Z_le_gt_dec n 356) as [C2 | C2].
    + assert (U : f n <= f 173%Z).
      { destruct (Z.eq_dec n 173) as [-> | N]; [lra |].
        left. apply (proj1 (proj2 (T 173%Z n ltac:(lia) ltac:(lia) ltac:(lia)))); lia. }
      assert (L : f 356%Z <= f n).
      { destruct (Z.eq_dec n 356) as [-> | N]; [lra |].
        left. apply (proj1 (proj2 (T n 356%Z ltac:(lia) ltac:(lia) ltac:(lia)))); lia. }
      lra.
    + assert (L : f 356%Z < f n) by (apply (proj2 (proj2 (T 356%Z n ltac:(lia) ltac:(lia) ltac:(lia)))); lia).
      assert (U : f n <= f 366%Z).
      { destruct (Z.eq_dec n 366) as [-> | N]; [lra |].
        left. apply (proj2 (proj2 (T n 366%Z ltac:(lia) ltac:(lia) ltac:(lia)))); lia. }
      lra.
Qed.

End Seasons.

(** X7: for every valid date the declination lies between -0.40887 and
    0.40938 radians; in degrees, as the table shows it, between -23.43
    and 23.46. *)
Theorem solar_declination_rad_degrees (d : date) :
  valid_date d ->
  exists delta : R,
    solar_declination_rad d = Returned delta /\
    (-0.40887 <= delta <= 0.40938)%R /\
    (-23.43 < rad2deg delta < 23.46)%R.
Proof.
  intros V. destruct (declination_of_date d V) as (delta & E & Rg & _).
  exists delta. split; [exact E |]. split; [exact Rg |].
  pose proof PI_lower as PL. pose proof PI_upper as PU.
  unfold rad2deg.
  replace (delta * (180 / PI))%R with (180 * delta / PI)%R by (field; lra).
  split.
  - apply Rmult_lt_reg_r with PI; [lra |].
    replace (180 * delta / PI * PI)%R with (180 * delta)%R by (field; lra). lra.
  - apply Rmult_lt_reg_r with PI; [lra |].
    replace (180 * delta / PI * PI)%R with (180 * delta)%R by (field; lra). lra.
Qed.

Lemma solar_declination_rad_degrees_witness :
  valid_date (mkdate 2023 6 22) /\
  exists delta : R,
    solar_declination_rad (mkdate 2023 6 22) = Returned delta /\
    (-0.40887 <= delta <= 0.40938)%R /\
    (-23.43 < rad2deg delta < 23.46)%R.
Proof.
  split; [reflexivity |].
  apply (solar_declination_rad_degrees (mkdate 2023 6 22)). reflexivity.
Defined.

(** X8: the declination is positive on the days numbered 81 to 266 and
    negative on all the others. *)
Theorem solar_declination_rad_sign (d : date) :
  valid_date d ->
  exists (n : Z) (delta : R),
    day_of_year d = Returned n /\
    solar_declination_rad d = Returned delta /\
    ((81 <= n <= 266)%Z -> (0 < delta)%R) /\
    ((n <= 80 \/ 267 <= n)%Z -> (delta < 0)%R).
Proof.
  intros V. exists (yday d), (declination_series (day_angle (yday d))).
  split; [apply day_of_year_yday, V |].
  split; [apply solar_declination_rad_yday, V |].
  apply declination_series_sign, yday_366, V.
Qed.

Lemma solar_declination_rad_sign_witness :
  valid_date (mkdate 2023 3 22) /\
  exists (n : Z) (delta : R),
    day_of_year (mkdate 2023 3 22) = Returned n /\
    solar_declination_rad (mkdate 2023 3 22) = Returned delta /\
    ((81 <= n <= 266)%Z -> (0 < delta)%R) /\
    ((n <= 80 \/ 267 <= n)%Z -> (delta < 0)%R).
Proof.
  split; [reflexivity |].
  apply (solar_declination_rad_sign (mkdate 2023 3 22)). reflexivity.
Defined.

(** X9: by day number the declination rises strictly up to day 173, falls
    strictly from day 173 to day 356, and rises again from day 356 to the
    end of the year; day 173 has the largest and day 356 the smallest
    declination. *)
Theorem solar_declination_rad_trend (d1 d2 : date) :
  valid_date d1 -> valid_date d2 ->
  exists (n1 n2 : Z) (delta1 delta2 : R),
    day_of_year d1 = Returned n1 /\ day_of_year d2 = Returned n2 /\
    solar_declination_rad d1 = Returned delta1 /\
    solar_declination_rad d2 = Returned delta2 /\
    ((n1 < n2)%Z -> (n2 <= 173)%Z -> (delta1 < delta2)%R) /\
    ((173 <= n1)%Z -> (n1 < n2)%Z -> (n2 <= 356)%Z -> (delta2 < delta1)%R) /\
    ((356 <= n1)%Z -> (n1 < n2)%Z -> (delta1 < delta2)%R) /\
    (n2 = 173%Z -> (delta1 <= delta2)%R) /\
    (n2 = 356%Z -> (delta2 <= delta1)%R).
Proof.
  intros V1 V2.
  pose proof (yday_366 d1 V1) as R1. pose proof (yday_366 d2 V2) as R2.
  exists (yday d1), (yday d2),
    (declination_series (day_angle (yday d1))),
    (declination_series (day_angle (yday d2))).
  split; [apply day_of_year_yday, V1 |].
  split; [apply day_of_year_yday, V2 |].
  split; [apply solar_declination_rad_yday, V1 |].
  split; [apply solar_declination_rad_yday, V2 |].
  set (f := fun k => declination_series (day_angle k)).
  change (declination_series (day_angle (yday d1))) with (f (yday d1)).
  change (declination_series (day_angle (yday d2))) with (f (yday d2)).
  assert (T : forall n m : Z,
             (1 <= n)%Z -> (n < m)%Z -> (m <= 366)%Z ->
             ((m <= 173)%Z -> (f n < f m)%R) /\
             ((173 <= n)%Z -> (m <= 356)%Z -> (f m < f n)%R) /\
             ((356 <= n)%Z -> (f n < f m)%R))
    by (intros n m; apply declination_series_trend).
  specialize (T (yday d1) (yday d2)).
  split; [intros L Q;
          destruct (T ltac:(lia) L ltac:(lia)) as (T1 & _); apply T1, Q |].
  split; [intros Q1 L Q2;
          destruct (T ltac:(lia) L ltac:(lia)) as (_ & T2 & _);
          apply T2; assumption |].
  split; [intros Q L;
          destruct (T ltac:(lia) L ltac:(lia)) as (_ & _ & T3); apply T3, Q |].
  split; intros E; rewrite E; apply declination_series_extremes; assumption.
Qed.

Lemma solar_declination_rad_trend_witness :
  valid_date (mkdate 2023 3 1) /\ valid_date (mkdate 2023 6 22) /\
  exists (n1 n2 : Z) (delta1 delta2 : R),
    day_of_year (mkdate 2023 3 1) = Returned n1 /\
    day_of_year (mkdate 2023 6 22) = Returned n2 /\
    solar_declination_rad (mkdate 2023 3 1) = Returned delta1 /\
    solar_declination_rad (mkdate 2023 6 22) = Returned delta2 /\
    ((n1 < n2)%Z -> (n2 <= 173)%Z -> (delta1 < delta2)%R) /\
    ((173 <= n1)%Z -> (n1 < n2)%Z -> (n2 <= 356)%Z -> (delta2 < delta1)%R) /\
    ((356 <= n1)%Z -> (n1 < n2)%Z -> (delta1 < delta2)%R) /\
    (n2 = 173%Z -> (delta1 <= delta2)%R) /\
    (n2 = 356%Z -> (delta2 <= delta1)%R).
Proof.
  split; [reflexivity |]. split; [reflexivity |].
  apply (solar_declination_rad_trend (mkdate 2023 3 1) (mkdate 2023 6 22));
    reflexivity.
Defined.

(** ** Latitude, declination and the length of the day *)

Section HourAngle.

Open Scope R_scope.

Lemma cos_le_cos_iff (u a : R) :
  - PI <= u <= PI -> 0 <= a <= PI -> (cos u <= cos a <-> a <= Rabs u).
Proof.
  intros U A.
  assert (E : cos u = cos (Rabs u)).
  { unfold Rabs. destruct (Rcase_abs u); [rewrite cos_neg |]; reflexivity. }
  assert (B : 0 <= Rabs u <= PI).
  { unfold Rabs. destruct (Rcase_abs u); lra. }
  rewrite E. split; intros H.
  - apply cos_decr_0; lra.
  - apply cos_decr_1; lra.
Qed.

Lemma quotient_low_iff (num den : R) :
  0 < den -> (num / den <= -1 <-> num <= - den).
Proof.
  intros D. split; intros H.
  - apply Rmult_le_compat_r with (r := den) in H; [| lra].
    replace (num / den * den) with num in H by (field; lra). lra.
  - apply quotient_below; assumption.
Qed.

Lemma quotient_high_iff (num den : R) :
  0 < den -> (1 <= num / den <-> den <= num).
Proof.
  intros D. split; intros H.
  - apply Rmult_le_compat_r with (r := den) in H; [| lra].
    replace (num / den * den) with num in H by (field; lra). lra.
  - apply Rmult_le_reg_r with den; [exact D |].
    replace (num / den * den) with num by (field; lra). lra.
Qed.

Lemma fraction_le (n1 d1 n2 d2 : R) :
  0 < d1 -> 0 < d2 -> n2 * d1 <= n1 * d2 -> n2 / d2 <= n1 / d1.
Proof.
  intros D1 D2 H.
  assert (P : 0 < d1 * d2) by (apply Rmult_lt_0_compat; assumption).
  apply Rmult_le_reg_r with (d1 * d2); [exact P |].
  replace (n2 / d2 * (d1 * d2)) with (n2 * d1) by (field; lra).
  replace (n1 / d1 * (d1 * d2)) with (n1 * d2) by (field; lra).
  exact H.
Qed.

(** The quotient against the two polar thresholds, as angles. *)
Lemma polar_angles (phi delta : R) :
  - (PI / 2) < phi < PI / 2 -> -0.40887 <= delta <= 0.40938 ->
  let c := cos_H0_num phi delta (deg2rad (-0.833)) / cos_H0_den phi delta in
  0 < cos_H0_den phi delta /\
  (c <= -1 <-> PI / 2 - 0.833 * (PI / 180) <= Rabs (phi + delta)) /\
  (1 <= c <-> PI / 2 + 0.833 * (PI / 180) <= Rabs (phi - delta)).
Proof.
  intros P Rg c.
  pose proof horizon_range as [H1 H2]. pose proof PI2_1 as P2.
  assert (Cp : 0 < cos phi) by (apply cos_gt_0; lra).
  assert (Cd : 0 < cos delta) by (apply cos_gt_0; lra).
  assert (D : 0 < cos_H0_den phi delta)
    by (unfold cos_H0_den; apply Rmult_lt_0_compat; assumption).
  split; [exact D |]. split.
  - unfold c. rewrite (quotient_low_iff _ _ D).
    rewrite <- (cos_le_cos_iff (phi + delta)) by lra.
    rewrite cos_shift, cos_plus.
    unfold cos_H0_num, cos_H0_den. rewrite sin_horizon. split; lra.
  - unfold c. rewrite (quotient_high_iff _ _ D).
    rewrite <- (cos_le_cos_iff (phi - delta)) by lra.
    rewrite cos_right_plus, cos_minus.
    unfold cos_H0_num, cos_H0_den. rewrite sin_horizon. split; lra.
Qed.

(** The result, read off the quotient. *)
Lemma calculate_daylight_of_quotient (lat_deg : R) (d : date) (delta : R) :
  solar_declination_rad d = Returned delta ->
  cos_H0_den (deg2rad lat_deg) delta <> 0 ->
  let c := cos_H0_num (deg2rad lat_deg) delta (deg2rad (-0.833))
           / cos_H0_den (deg2rad lat_deg) delta in
  exists (h : R) (k : condition),
    calculate_daylight lat_deg d = Returned (Finite h, k) /\
    (k = PolarDay <-> c <= -1) /\
    (k = PolarNight <-> 1 <= c) /\
    (c <= -1 -> h = 24) /\
    (1 <= c -> h = 0) /\
    (-1 < c < 1 -> h = 2 * rad2deg (acos c) / 15 /\ 0 < h < 24).
Proof.
  intros E D c.
  destruct (calculate_daylight_finite lat_deg d delta E D) as (Low & High & Mid).
  fold c in Low, High, Mid.
  destruct (Rle_dec c (-1)) as [L | L].
  - exists 24, PolarDay. split; [apply Low, L |].
    repeat split; intros; try reflexivity; try discriminate; try assumption; lra.
  - destruct (Rle_dec 1 c) as [H | H].
    + exists 0, PolarNight. split; [apply High, H |].
      repeat split; intros; try reflexivity; try discriminate; try assumption; lra.
    + assert (I : -1 < c < 1) by lra.
      pose proof (hours_of_angle _ (acos_bound_lt c I)) as B.
      exists (2 * rad2deg (acos c) / 15), NormalDay. split; [apply Mid, I |].
      repeat split; intros; try reflexivity; try discriminate; lra.
Qed.

Lemma deg2rad_sum (lat_deg delta : R) :
  deg2rad (lat_deg + rad2deg delta) = deg2rad lat_deg + delta /\
  deg2rad (lat_deg - rad2deg delta) = deg2rad lat_deg - delta.
Proof.
  pose proof PI_RGT_0 as P. unfold deg2rad, rad2deg. split; field; lra.
Qed.

Lemma Rabs_deg2rad (x : R) : Rabs (deg2rad x) = Rabs x * (PI / 180).
Proof.
  pose proof PI_RGT_0 as P. unfold deg2rad.
  rewrite Rabs_mult, (Rabs_pos_eq (PI / 180)) by lra. reflexivity.
Qed.

Lemma latitude_in_quadrant (lat_deg : R) :
  -90 < lat_deg < 90 -> - (PI / 2) < deg2rad lat_deg < PI / 2.
Proof.
  intros [L U]. pose proof PI_RGT_0 as P. unfold deg2rad.
  assert (K : 0 < PI / 180) by lra.
  pose proof (Rmult_lt_compat_r _ _ _ K L).
  pose proof (Rmult_lt_compat_r _ _ _ K U). lra.
Qed.

(** The conditions in degrees of latitude and declination. *)
Lemma polar_degrees (lat_deg : R) (d : date) :
  -90 < lat_deg < 90 -> valid_date d ->
  exists (delta h : R) (k : condition),
    solar_declination_rad d = Returned delta /\
    calculate_daylight lat_deg d = Returned (Finite h, k) /\
    (k = PolarDay <-> 89.167 <= Rabs (lat_deg + rad2deg delta)) /\
    (k = PolarNight <-> 90.833 <= Rabs (lat_deg - rad2deg delta)) /\
    (k = PolarDay -> h = 24) /\ (k = PolarNight -> h = 0) /\
    (k = NormalDay -> 0 < h < 24).
Proof.
  intros L V.
  destruct (declination_of_date d V) as (delta & E & Rg & _).
  destruct (polar_angles _ delta (latitude_in_quadrant _ L) Rg) as (D & A1 & A2).
  destruct (calculate_daylight_of_quotient lat_deg d delta E ltac:(lra))
    as (h & k & Q & K1 & K2 & V1 & V2 & V3).
  pose proof PI_RGT_0 as P.
  destruct (deg2rad_sum lat_deg delta) as [S1 S2].
  exists delta, h, k. split; [exact E |]. split; [exact Q |].
  split; [| split; [| split; [| split]]].
  - rewrite K1, A1, <- S1, Rabs_deg2rad.
    assert (0 <= Rabs (lat_deg + rad2deg delta)) by apply Rabs_pos.
    split; intros; nra.
  - rewrite K2, A2, <- S2, Rabs_deg2rad.
    assert (0 <= Rabs (lat_deg - rad2deg delta)) by apply Rabs_pos.
    split; intros; nra.
  - intros ->. apply V1, K1. reflexivity.
  - intros ->. apply V2, K2. reflexivity.
  - intros ->. apply V3.
    destruct (Rle_dec (cos_H0_num (deg2rad lat_deg) delta (deg2rad (-0.833))
                       / cos_H0_den (deg2rad lat_deg) delta) (-1)) as [C | C].
    + apply K1 in C. discriminate.
    + destruct (Rle_dec 1 (cos_H0_num (deg2rad lat_deg) delta (deg2rad (-0.833))
                           / cos_H0_den (deg2rad lat_deg) delta)) as [C' | C'].
      * apply K2 in C'. discriminate.
      * lra.
Qed.

End HourAngle.



Section Solstices.

Open Scope R_scope.

Lemma solstice_bounds :
  ((409376000000000000 <=? declination_lo quadrant_table 173)%Z
   && (declination_hi quadrant_table 356 <=? -408861000000000000)%Z)%bool = true.
Proof. vm_compute. reflexivity. Qed.

Lemma declination_series_solstices :
  0.409376 <= declination_series (day_angle 173) /\
  declination_series (day_angle 356) <= -0.408861.
Proof.
  pose proof solstice_bounds as B. apply andb_true_iff in B. destruct B as [B1 B2].
  apply Z.leb_le, IZR_le in B1. apply Z.leb_le, IZR_le in B2.
  pose proof (declination_bounds_sound 173 ltac:(lia)) as [L _].
  pose proof (declination_bounds_sound 356 ltac:(lia)) as [_ U].
  unfold scale in *. split; lra.
Qed.

(** In degrees, the declination of the two solstice days. *)
Lemma declination_degrees_solstices :
  23.4554 < rad2deg (declination_series (day_angle 173)) /\
  rad2deg (declination_series (day_angle 356)) < -23.4259.
Proof.
  destruct declination_series_solstices as [A B].
  pose proof PI_lower as PL. pose proof PI_upper as PU.
  unfold rad2deg. split.
  - replace (declination_series (day_angle 173) * (180 / PI))
      with (180 * declination_series (day_angle 173) / PI) by (field; lra).
    apply Rmult_lt_reg_r with PI; [lra |].
    replace (180 * declination_series (day_angle 173) / PI * PI)
      with (180 * declination_series (day_angle 173)) by (field; lra).
    lra.
  - replace (declination_series (day_angle 356) * (180 / PI))
      with (180 * declination_series (day_angle 356) / PI) by (field; lra).
    apply Rmult_lt_reg_r with PI; [lra |].
    replace (180 * declination_series (day_angle 356) / PI * PI)
      with (180 * declination_series (day_angle 356)) by (field; lra).
    lra.
Qed.

End Solstices.

(** X12: beyond the polar circles the solstice days are polar.  On day 173
    of the year a latitude from 65.72 degrees north up to the pole has a
    Polar Day and a latitude from 67.38 degrees south down to the pole a
    Polar Night; on day 356 a latitude from 67.41 degrees north has a Polar
    Night and one from 65.75 degrees south a Polar Day. *)
Theorem calculate_daylight_solstices (lat_deg : R) (d : date) :
  (-90 < lat_deg < 90)%R -> valid_date d ->
  exists n : Z,
    day_of_year d = Returned n /\
    (n = 173%Z -> (65.72 <= lat_deg)%R ->
     calculate_daylight lat_deg d = Returned (Finite 24, PolarDay)) /\
    (n = 173%Z -> (lat_deg <= -67.38)%R ->
     calculate_daylight lat_deg d = Returned (Finite 0, PolarNight)) /\
    (n = 356%Z -> (67.41 <= lat_deg)%R ->
     calculate_daylight lat_deg d = Returned (Finite 0, PolarNight)) /\
    (n = 356%Z -> (lat_deg <= -65.75)%R ->
     calculate_daylight lat_deg d = Returned (Finite 24, PolarDay)).
Proof.
  intros L V. exists (yday d). split; [apply day_of_year_yday, V |].
  destruct (polar_degrees lat_deg d L V)
    as (delta & h & k & E & Q & K1 & K2 & V1 & V2 & _).
  rewrite (solar_declination_rad_yday d V) in E. injection E as E.
  destruct declination_degrees_solstices as [A B].
  assert (PD : (89.167 <= Rabs (lat_deg + rad2deg delta))%R ->
               calculate_daylight lat_deg d = Returned (Finite 24, PolarDay)).
  { intros C. apply K1 in C. rewrite Q, (V1 C), C. reflexivity. }
  assert (PN : (90.833 <= Rabs (lat_deg - rad2deg delta))%R ->
               calculate_daylight lat_deg d = Returned (Finite 0, PolarNight)).
  { intros C. apply K2 in C. rewrite Q, (V2 C), C. reflexivity. }
  repeat split; intros N C; rewrite N in E; rewrite <- E in *.
  - apply PD. rewrite Rabs_pos_eq; lra.
  - apply PN. rewrite Rabs_left; lra.
  - apply PN. rewrite Rabs_pos_eq; lra.
  - apply PD. rewrite Rabs_left; lra.
Qed.

Lemma calculate_daylight_solstices_witness :
  (-90 < 80 < 90)%R /\ valid_date (mkdate 2023 6 22) /\
  exists n : Z,
    day_of_year (mkdate 2023 6 22) = Returned n /\
    (n = 173%Z -> (65.72 <= 80)%R ->
     calculate_daylight 80 (mkdate 2023 6 22) = Returned (Finite 24, PolarDay)) /\
    (n = 173%Z -> (80 <= -67.38)%R ->
     calculate_daylight 80 (mkdate 2023 6 22) = Returned (Finite 0, PolarNight)) /\
    (n = 356%Z -> (67.41 <= 80)%R ->
     calculate_daylight 80 (mkdate 2023 6 22) = Returned (Finite 0, PolarNight)) /\
    (n = 356%Z -> (80 <= -65.75)%R ->
     calculate_daylight 80 (mkdate 2023 6 22) = Returned (Finite 24, PolarDay)).
Proof.
  assert (L : (-90 < 80 < 90)%R) by lra.
  split; [exact L |]. split; [reflexivity |].
  apply (calculate_daylight_solstices 80 (mkdate 2023 6 22) L). reflexivity.
Defined.

Section LongDays.

Open Scope R_scope.

Lemma acos_antitone (x y : R) : -1 < x -> x <= y -> y < 1 -> acos y <= acos x.
Proof.
  intros X L Y.
  pose proof (acos_bound_lt x ltac:(lra)) as [A0 A1].
  pose proof (acos_bound_lt y ltac:(lra)) as [B0 B1].
  apply cos_decr_0; try lra.
  rewrite !cos_acos by lra. exact L.
Qed.

Lemma acos_beyond_right (c x : R) :
  -1 < c < 1 -> 0 <= x <= PI / 2 -> c <= - sin x -> PI / 2 + x <= acos c.
Proof.
  intros I X C. pose proof PI_RGT_0 as P.
  pose proof (acos_bound_lt c I) as [A0 A1].
  destruct (Rle_dec (PI / 2 + x) (acos c)) as [G | G]; [exact G |].
  exfalso.
  assert (D : cos (PI / 2 + x) < cos (acos c)) by (apply cos_decreasing_1; lra).
  rewrite cos_right_plus, cos_acos in D by lra. lra.
Qed.

Lemma hours_of_angle_value (a : R) : 2 * rad2deg a / 15 = 24 * (a / PI).
Proof. pose proof PI_RGT_0 as P. unfold rad2deg. field. lra. Qed.

Lemma hours_monotone (a b : R) :
  a <= b -> 2 * rad2deg a / 15 <= 2 * rad2deg b / 15.
Proof.
  intros L. pose proof PI_RGT_0 as P. rewrite !hours_of_angle_value.
  apply Rmult_le_compat_l; [lra |].
  unfold Rdiv. apply Rmult_le_compat_r; [left; apply Rinv_0_lt_compat, P | exact L].
Qed.

(** Where latitude and declination have the same sign the quotient is at
    most the sine of the horizon correction, negated. *)
Lemma summer_quotient (phi delta : R) :
  - (PI / 2) < phi < PI / 2 -> -0.40887 <= delta <= 0.40938 ->
  0 <= sin phi * sin delta ->
  cos_H0_num phi delta (deg2rad (-0.833)) / cos_H0_den phi delta
  <= - sin (0.833 * (PI / 180)).
Proof.
  intros P Rg S.
  pose proof horizon_range as [H1 H2]. pose proof PI2_1 as P2.
  assert (Cp : 0 < cos phi <= 1) by (split; [apply cos_gt_0; lra | apply COS_bound]).
  assert (Cd : 0 < cos delta <= 1)
    by (split; [apply cos_gt_0; lra | apply COS_bound]).
  assert (Sh : 0 < sin (0.833 * (PI / 180))) by (apply sin_gt_0; lra).
  assert (D : 0 < cos_H0_den phi delta <= 1) by (unfold cos_H0_den; nra).
  apply Rmult_le_reg_r with (cos_H0_den phi delta); [lra |].
  replace (cos_H0_num phi delta (deg2rad (-0.833)) / cos_H0_den phi delta
           * cos_H0_den phi delta)
    with (cos_H0_num phi delta (deg2rad (-0.833))) by (field; lra).
  unfold cos_H0_num. rewrite sin_horizon. nra.
Qed.

Lemma summer_day (lat_deg : R) (d : date) (delta : R) :
  -90 < lat_deg < 90 -> valid_date d ->
  solar_declination_rad d = Returned delta ->
  0 <= sin (deg2rad lat_deg) * sin delta ->
  exists (h : R) (k : condition),
    calculate_daylight lat_deg d = Returned (Finite h, k) /\
    k <> PolarNight /\ 12.111 < h <= 24.
Proof.
  intros L V E S.
  destruct (declination_of_date d V) as (delta' & E' & Rg & _).
  rewrite E in E'. injection E' as <-.
  pose proof (latitude_in_quadrant _ L) as P.
  destruct (polar_angles _ delta P Rg) as (D & _).
  pose proof (summer_quotient _ delta P Rg S) as C.
  destruct (calculate_daylight_of_quotient lat_deg d delta E ltac:(lra))
    as (h & k & Q & K1 & K2 & V1 & V2 & V3).
  set (c := cos_H0_num (deg2rad lat_deg) delta (deg2rad (-0.833))
            / cos_H0_den (deg2rad lat_deg) delta) in *.
  pose proof horizon_range as [H1 H2].
  pose proof PI_lower as PL. pose proof PI_upper as PU.
  assert (Sh : 0 < sin (0.833 * (PI / 180))) by (apply sin_gt_0; lra).
  exists h, k. split; [exact Q |].
  split; [intros N; apply K2 in N; lra |].
  destruct (Rle_dec c (-1)) as [Lo | Lo]; [rewrite (V1 Lo); lra |].
  assert (I : -1 < c < 1) by lra.
  destruct (V3 I) as [Hv Hb]. split; [| lra].
  pose proof (acos_beyond_right c (0.833 * (PI / 180)) I ltac:(lra) C) as A.
  pose proof (hours_monotone _ _ A) as M.
  rewrite <- Hv in M. rewrite hours_of_angle_value in M.
  replace (24 * ((PI / 2 + 0.833 * (PI / 180)) / PI)) with (12 + 24 * 0.833 / 180) in M
    by (field; lra).
  lra.
Qed.

Lemma sin_sign (x : R) :
  - PI < x < PI -> (0 <= x -> 0 <= sin x) /\ (x <= 0 -> sin x <= 0).
Proof.
  intros X. split; intros H.
  - apply sin_ge_0; lra.
  - replace x with (- - x) by lra. rewrite sin_neg.
    assert (0 <= sin (- x)) by (apply sin_ge_0; lra). lra.
Qed.

End LongDays.

(** X13: in the summer half of the year of either hemisphere - the days
    numbered 81 to 266 at a latitude from 0 up to, not including, 90
    degrees north, the other days at a latitude from 0 up to 90 degrees
    south - the day is never a Polar Night and lasts more than 12.111
    hours. *)
Theorem calculate_daylight_summer (lat_deg : R) (d : date) :
  (-90 < lat_deg < 90)%R -> valid_date d ->
  exists (n : Z) (h : R) (cond : condition),
    day_of_year d = Returned n /\
    calculate_daylight lat_deg d = Returned (Finite h, cond) /\
    (((0 <= lat_deg)%R /\ (81 <= n <= 266)%Z) \/
     ((lat_deg <= 0)%R /\ (n <= 80 \/ 267 <= n)%Z) ->
     cond <> PolarNight /\ (12.111 < h <= 24)%R).
Proof.
  intros L V.
  destruct (polar_degrees lat_deg d L V) as (delta & h & k & E & Q & _).
  exists (yday d), h, k. split; [apply day_of_year_yday, V |].
  split; [exact Q |]. intros S.
  assert (G : (0 <= sin (deg2rad lat_deg) * sin delta)%R).
  { pose proof (latitude_in_quadrant _ L) as P. pose proof PI_RGT_0 as Pp.
    assert (P' : (- PI < deg2rad lat_deg < PI)%R) by lra.
    destruct (sin_sign _ P') as [Sp Sn].
    pose proof E as E2.
    rewrite (solar_declination_rad_yday d V) in E2. injection E2 as E2.
    destruct (declination_series_sign (yday d) (yday_366 d V)) as [Dp Dn].
    rewrite E2 in Dp, Dn.
    destruct (declination_of_date d V) as (delta' & E' & Rg & _).
    rewrite E in E'. injection E' as <-.
    assert (Pd : (- PI < delta < PI)%R) by (pose proof PI_lower; lra).
    destruct (sin_sign _ Pd) as [Sdp Sdn].
    assert (Z0 : deg2rad 0 = 0%R) by (unfold deg2rad; lra).
    destruct S as [[A B] | [A B]].
    - specialize (Dp B).
      assert ((0 <= deg2rad lat_deg)%R) by (unfold deg2rad; nra).
      apply Rmult_le_pos; [apply Sp | apply Sdp]; lra.
    - specialize (Dn B).
      assert ((deg2rad lat_deg <= 0)%R) by (unfold deg2rad; nra).
      replace (sin (deg2rad lat_deg) * sin delta)%R
        with ((- sin (deg2rad lat_deg)) * (- sin delta))%R by ring.
      apply Rmult_le_pos.
      + assert (sin (deg2rad lat_deg) <= 0)%R by (apply Sn; lra). lra.
      + assert (sin delta <= 0)%R by (apply Sdn; lra). lra. }
  destruct (summer_day lat_deg d delta L V E G) as (h' & k' & Q' & N & B).
  rewrite Q in Q'. injection Q' as <- <-. split; assumption.
Qed.

Lemma calculate_daylight_summer_witness :
  (-90 < 40 < 90)%R /\ valid_date (mkdate 2024 6 21) /\
  exists (n : Z) (h : R) (cond : condition),
    day_of_year (mkdate 2024 6 21) = Returned n /\
    calculate_daylight 40 (mkdate 2024 6 21) = Returned (Finite h, cond) /\
    (((0 <= 40)%R /\ (81 <= n <= 266)%Z) \/
     ((40 <= 0)%R /\ (n <= 80 \/ 267 <= n)%Z) ->
     cond <> PolarNight /\ (12.111 < h <= 24)%R).
Proof.
  assert (L : (-90 < 40 < 90)%R) by lra.
  split; [exact L |]. split; [reflexivity |].
  apply (calculate_daylight_summer 40 (mkdate 2024 6 21) L). reflexivity.
Defined.

Section ThroughTheYear.

Open Scope R_scope.

Lemma sin_one_degree : 0.01745 <= sin (PI / 180).
Proof.
  pose proof PI_lower as PL. pose proof PI_upper as PU.
  pose proof (sin_lower (PI / 180) ltac:(lra)) as L.
  set (x := PI / 180) in *.
  assert (X : 0.017453292 <= x <= 0.017453294) by (unfold x; lra).
  assert (X2 : x * x <= 0.017453294 * 0.017453294) by (apply Rmult_le_compat; lra).
  assert (X3 : x * x * x <= 0.017453294 * 0.017453294 * 0.017453294).
  { apply Rmult_le_compat; try lra. apply Rmult_le_pos; lra. }
  lra.
Qed.

(** The numerators of two quotients, cross-multiplied. *)
Lemma cross_difference (a b m p : R) :
  (- a - b * sin (m + p)) * cos (m - p) - (- a - b * sin (m - p)) * cos (m + p)
  = - (2 * sin p * (a * sin m + b * cos p)).
Proof.
  rewrite sin_plus, sin_minus, cos_plus, cos_minus.
  pose proof (sin2_cos2 m) as Q. unfold Rsqr in Q.
  replace (b * cos p) with (b * cos p * (sin m * sin m + cos m * cos m))
    by (rewrite Q; ring).
  ring.
Qed.

(** North of one degree the quotient falls as the declination grows, south
    of minus one degree it rises. *)
Lemma quotient_by_declination (phi delta1 delta2 : R) :
  - (PI / 2) < phi < PI / 2 ->
  -0.40887 <= delta1 -> delta1 <= delta2 -> delta2 <= 0.40938 ->
  let c := fun delta =>
             cos_H0_num phi delta (deg2rad (-0.833)) / cos_H0_den phi delta in
  (PI / 180 <= phi -> c delta2 <= c delta1) /\
  (phi <= - (PI / 180) -> c delta1 <= c delta2).
Proof.
  intros P L1 L12 L2 c.
  pose proof horizon_range as [H1 H2]. pose proof PI2_1 as P2.
  pose proof PI_RGT_0 as Pp.
  assert (Cp : 0 < cos phi) by (apply cos_gt_0; lra).
  assert (C1 : 0 < cos delta1) by (apply cos_gt_0; lra).
  assert (C2 : 0 < cos delta2) by (apply cos_gt_0; lra).
  assert (D1 : 0 < cos_H0_den phi delta1)
    by (unfold cos_H0_den; apply Rmult_lt_0_compat; assumption).
  assert (D2 : 0 < cos_H0_den phi delta2)
    by (unfold cos_H0_den; apply Rmult_lt_0_compat; assumption).
  set (a := sin (0.833 * (PI / 180))).
  assert (A0 : 0 < a) by (apply sin_gt_0; lra).
  assert (A1 : a < 0.0145386).
  { apply Rlt_trans with (0.833 * (PI / 180)); [apply sin_lt_x; lra | lra]. }
  set (m := (delta1 + delta2) / 2). set (p := (delta2 - delta1) / 2).
  assert (E1 : delta1 = m - p) by (unfold m, p; lra).
  assert (E2 : delta2 = m + p) by (unfold m, p; lra).
  assert (Pr : 0 <= p <= 0.409125) by (unfold p; lra).
  assert (Sp : 0 <= sin p) by (apply sin_ge_0; lra).
  assert (Cq : 0.9162 <= cos p).
  { pose proof (cos_lower p ltac:(lra)) as Lc. nra. }
  assert (Sm : -1 <= sin m <= 1) by apply SIN_bound.
  pose proof (cross_difference a (sin phi) m p) as X.
  rewrite <- E1, <- E2 in X.
  pose proof sin_one_degree as S1.
  assert (N : forall delta,
             cos_H0_num phi delta (deg2rad (-0.833)) = - a - sin phi * sin delta).
  { intros delta. unfold cos_H0_num. rewrite sin_horizon. reflexivity. }
  split; intros B.
  - assert (Sb : 0.01745 <= sin phi).
    { apply Rle_trans with (sin (PI / 180)); [exact S1 |].
      apply sin_incr_1; lra. }
    assert (G : 0 <= 2 * sin p * (a * sin m + sin phi * cos p)).
    { apply Rmult_le_pos; [lra |].
      assert (0.01745 * 0.9162 <= sin phi * cos p)
        by (apply Rmult_le_compat; lra).
      nra. }
    unfold c. apply fraction_le; try assumption.
    rewrite !N. unfold cos_H0_den. nra.
  - assert (Sb : sin phi <= -0.01745).
    { apply Rle_trans with (sin (- (PI / 180))); [| rewrite sin_neg; lra].
      apply sin_incr_1; lra. }
    assert (G : 2 * sin p * (a * sin m + sin phi * cos p) <= 0).
    { assert (0.01745 * 0.9162 <= (- sin phi) * cos p)
        by (apply Rmult_le_compat; lra).
      assert (a * sin m + sin phi * cos p <= 0) by nra.
      nra. }
    unfold c. apply fraction_le; try assumption.
    rewrite !N. unfold cos_H0_den. nra.
Qed.

(** A smaller quotient is a longer day. *)
Lemma hours_by_quotient (c1 c2 h1 h2 : R) :
  c2 <= c1 ->
  (c1 <= -1 -> h1 = 24) -> (1 <= c1 -> h1 = 0) ->
  (-1 < c1 < 1 -> h1 = 2 * rad2deg (acos c1) / 15 /\ 0 < h1 < 24) ->
  (c2 <= -1 -> h2 = 24) -> (1 <= c2 -> h2 = 0) ->
  (-1 < c2 < 1 -> h2 = 2 * rad2deg (acos c2) / 15 /\ 0 < h2 < 24) ->
  h1 <= h2.
Proof.
  intros L A1 A2 A3 B1 B2 B3.
  destruct (Rle_dec c2 (-1)) as [Q2 | Q2].
  - rewrite (B1 Q2).
    destruct (Rle_dec c1 (-1)) as [Q1 | Q1]; [rewrite (A1 Q1); lra |].
    destruct (Rle_dec 1 c1) as [R1 | R1]; [rewrite (A2 R1); lra |].
    destruct (A3 ltac:(lra)) as [_ Bd]. lra.
  - destruct (Rle_dec 1 c1) as [R1 | R1].
    + rewrite (A2 R1).
      destruct (Rle_dec 1 c2) as [R2 | R2]; [rewrite (B2 R2); lra |].
      destruct (B3 ltac:(lra)) as [_ Bd]. lra.
    + assert (I1 : -1 < c1 < 1) by lra.
      destruct (A3 I1) as [-> _].
      destruct (Rle_dec 1 c2) as [R2 | R2]; [lra |].
      assert (I2 : -1 < c2 < 1) by lra.
      destruct (B3 I2) as [-> _].
      apply hours_monotone, acos_antitone; lra.
Qed.

Lemma daylight_by_declination (lat_deg : R) (d1 d2 : date) :
  -90 < lat_deg < 90 -> valid_date d1 -> valid_date d2 ->
  exists (delta1 delta2 h1 h2 : R) (k1 k2 : condition),
    solar_declination_rad d1 = Returned delta1 /\
    solar_declination_rad d2 = Returned delta2 /\
    calculate_daylight lat_deg d1 = Returned (Finite h1, k1) /\
    calculate_daylight lat_deg d2 = Returned (Finite h2, k2) /\
    (1 <= lat_deg -> delta1 <= delta2 -> h1 <= h2) /\
    (lat_deg <= -1 -> delta1 <= delta2 -> h2 <= h1).
Proof.
  intros L V1 V2.
  destruct (declination_of_date d1 V1) as (delta1 & E1 & Rg1 & _).
  destruct (declination_of_date d2 V2) as (delta2 & E2 & Rg2 & _).
  pose proof (latitude_in_quadrant _ L) as P.
  destruct (polar_angles _ delta1 P Rg1) as (D1 & _).
  destruct (polar_angles _ delta2 P Rg2) as (D2 & _).
  destruct (calculate_daylight_of_quotient lat_deg d1 delta1 E1 ltac:(lra))
    as (h1 & k1 & Q1 & _ & _ & A1 & A2 & A3).
  destruct (calculate_daylight_of_quotient lat_deg d2 delta2 E2 ltac:(lra))
    as (h2 & k2 & Q2 & _ & _ & B1 & B2 & B3).
  exists delta1, delta2, h1, h2, k1, k2.
  split; [exact E1 |]. split; [exact E2 |]. split; [exact Q1 |]. split; [exact Q2 |].
  pose proof PI_RGT_0 as Pp.
  split; intros Lt Ld.
  - destruct (quotient_by_declination _ delta1 delta2 P ltac:(lra) Ld ltac:(lra))
      as [N _].
    apply (hours_by_quotient _ _ h1 h2 (N ltac:(unfold deg2rad; nra))); assumption.
  - destruct (quotient_by_declination _ delta1 delta2 P ltac:(lra) Ld ltac:(lra))
      as [_ S].
    apply (hours_by_quotient _ _ h2 h1 (S ltac:(unfold deg2rad; nra))); assumption.
Qed.

End ThroughTheYear.

(** X14: at a latitude from 1 degree north up to, not including, the pole
    a date with a larger declination has at least as much daylight, so
    day 173 is the longest day of the year and day 356 the shortest; from
    1 degree south down to the pole it is the other way round. *)
Theorem calculate_daylight_longest_day (lat_deg : R) (d1 d2 : date) :
  (-90 < lat_deg < 90)%R -> valid_date d1 -> valid_date d2 ->
  exists (n2 : Z) (delta1 delta2 h1 h2 : R) (k1 k2 : condition),
    day_of_year d2 = Returned n2 /\
    solar_declination_rad d1 = Returned delta1 /\
    solar_declination_rad d2 = Returned delta2 /\
    calculate_daylight lat_deg d1 = Returned (Finite h1, k1) /\
    calculate_daylight lat_deg d2 = Returned (Finite h2, k2) /\
    ((1 <= lat_deg)%R -> (delta1 <= delta2)%R -> (h1 <= h2)%R) /\
    ((lat_deg <= -1)%R -> (delta1 <= delta2)%R -> (h2 <= h1)%R) /\
    ((1 <= lat_deg)%R -> n2 = 173%Z -> (h1 <= h2)%R) /\
    ((1 <= lat_deg)%R -> n2 = 356%Z -> (h2 <= h1)%R) /\
    ((lat_deg <= -1)%R -> n2 = 173%Z -> (h2 <= h1)%R) /\
    ((lat_deg <= -1)%R -> n2 = 356%Z -> (h1 <= h2)%R).
Proof.
  intros L V1 V2.
  destruct (daylight_by_declination lat_deg d1 d2 L V1 V2)
    as (delta1 & delta2 & h1 & h2 & k1 & k2 & E1 & E2 & Q1 & Q2 & N & S).
  destruct (daylight_by_declination lat_deg d2 d1 L V2 V1)
    as (e2 & e1 & g2 & g1 & j2 & j1 & F2 & F1 & R2 & R1 & N' & S').
  rewrite E1 in F1. injection F1 as <-. rewrite E2 in F2. injection F2 as <-.
  rewrite Q1 in R1. injection R1 as <- <-.
  rewrite Q2 in R2. injection R2 as <- <-.
  exists (yday d2), delta1, delta2, h1, h2, k1, k2.
  split; [apply day_of_year_yday, V2 |].
  split; [exact E1 |]. split; [exact E2 |]. split; [exact Q1 |]. split; [exact Q2 |].
  split; [exact N |]. split; [exact S |].
  pose proof E1 as G1. pose proof E2 as G2.
  rewrite (solar_declination_rad_yday d1 V1) in G1. injection G1 as G1.
  rewrite (solar_declination_rad_yday d2 V2) in G2. injection G2 as G2.
  pose proof (declination_series_extremes (yday d1) (yday_366 d1 V1)) as [Mn Mx].
  rewrite G1 in Mn, Mx.
  repeat split; intros Lt Dn; rewrite Dn in G2; rewrite <- G2 in *.
  - apply N; assumption.
  - apply N'; assumption.
  - apply S; assumption.
  - apply S'; assumption.
Qed.

Lemma calculate_daylight_longest_day_witness :
  (-90 < 40 < 90)%R /\
  valid_date (mkdate 2023 3 1) /\ valid_date (mkdate 2023 6 22) /\
  exists (n2 : Z) (delta1 delta2 h1 h2 : R) (k1 k2 : condition),
    day_of_year (mkdate 2023 6 22) = Returned n2 /\
    solar_declination_rad (mkdate 2023 3 1) = Returned delta1 /\
    solar_declination_rad (mkdate 2023 6 22) = Returned delta2 /\
    calculate_daylight 40 (mkdate 2023 3 1) = Returned (Finite h1, k1) /\
    calculate_daylight 40 (mkdate 2023 6 22) = Returned (Finite h2, k2) /\
    ((1 <= 40)%R -> (delta1 <= delta2)%R -> (h1 <= h2)%R) /\
    ((40 <= -1)%R -> (delta1 <= delta2)%R -> (h2 <= h1)%R) /\
    ((1 <= 40)%R -> n2 = 173%Z -> (h1 <= h2)%R) /\
    ((1 <= 40)%R -> n2 = 356%Z -> (h2 <= h1)%R) /\
    ((40 <= -1)%R -> n2 = 173%Z -> (h2 <= h1)%R) /\
    ((40 <= -1)%R -> n2 = 356%Z -> (h1 <= h2)%R).
Proof.
  assert (L : (-90 < 40 < 90)%R) by lra.
  split; [exact L |]. split; [reflexivity |]. split; [reflexivity |].
  apply (calculate_daylight_longest_day 40 (mkdate 2023 3 1) (mkdate 2023 6 22) L);
    reflexivity.
Defined.

(** ** The table, year by year *)

Section WholeTable.

Open Scope Z_scope.

(** The rows of a year the calendar has. *)
Lemma generate_lookup_table_days (fuel : nat) (lat_deg : R) (y : Z) :
  1 <= y <= 9998 -> (Z.to_nat (days_in_year y) < fuel)%nat ->
  exists rows : list table_row,
    generate_lookup_table fuel lat_deg y
    = (Returned tt, header :: map DataLine rows) /\
    Z.of_nat (List.length rows) = days_in_year y /\
    forall (i : nat) (r : table_row),
      nth_error rows i = Some r -> row_of_day lat_deg y (Z.of_nat i + 1) r.
Proof.
  intros Hy F.
  assert (V1 : valid_date (mkdate y 1 1)) by (apply valid_first_day; lia).
  assert (N : 1 <= days_in_year y)
    by (unfold days_in_year; destruct (is_leap y); lia).
  destruct (table_loop_rows lat_deg y Hy (Z.to_nat (days_in_year y - 1)) fuel
              (mkdate y 1 1) [header] V1 eq_refl) as (rows & E & L & P).
  { rewrite yday_first_day. lia. }
  { lia. }
  exists rows. split; [| split; [lia |]].
  - unfold generate_lookup_table, wbind, writerow, wlift.
    rewrite !date_new_first_day by lia. cbn [app]. exact E.
  - intros i r Hr. specialize (P i r Hr).
    rewrite yday_first_day in P.
    replace (Z.of_nat i + 1) with (1 + Z.of_nat i) by lia. exact P.
Qed.

End WholeTable.



(** X16: in the table of a year from 1 to 9998 every row is consistent:
    the day number is between 1 and 366, the declination between -23.43 and
    23.46 degrees, the daylight a finite number of hours between 0 and 24
    which is 24 exactly on rows marked Polar Day and 0 exactly on rows
    marked Polar Night. *)
Theorem generate_lookup_table_rows_consistent
  (fuel : nat) (lat_deg : R) (y : Z) :
  (1 <= y <= 9998)%Z -> (Z.to_nat (days_in_year y) < fuel)%nat ->
  exists rows : list table_row,
    generate_lookup_table fuel lat_deg y
    = (Returned tt, header :: map DataLine rows) /\
    forall r : table_row,
      In r rows ->
      (1 <= row_doy r <= 366)%Z /\
      (-23.43 < row_declination_deg r < 23.46)%R /\
      exists h : R,
        row_daylight_hours r = Finite h /\
        (0 <= h <= 24)%R /\
        (h = 24%R <-> row_condition r = PolarDay) /\
        (h = 0%R <-> row_condition r = PolarNight).
Proof.
  intros Hy F.
  destruct (generate_lookup_table_days fuel lat_deg y Hy F) as (rows & E & _ & P).
  exists rows. split; [exact E |].
  intros r I. apply In_nth_error in I. destruct I as (i & I).
  destruct (P i r I) as (V & _ & _ & Dy & Q & delta & Sd & Dg).
  split.
  { rewrite (day_of_year_yday _ V) in Dy. injection Dy as <-. apply yday_366, V. }
  split.
  { destruct (declination_of_date _ V) as (delta' & Sd' & Rg & _).
    rewrite Sd in Sd'. injection Sd' as <-.
    rewrite Dg. unfold rad2deg.
    pose proof PI_lower as PL. pose proof PI_upper as PU.
    replace (delta * (180 / PI))%R with (180 * delta / PI)%R by (field; lra).
    split; (apply Rmult_lt_reg_r with PI; [lra |]);
      replace (180 * delta / PI * PI)%R with (180 * delta)%R by (field; lra); lra. }
  destruct (calculate_daylight_cases lat_deg _ V) as [C | [C | (h & C & B)]];
    rewrite Q in C; injection C as -> ->.
  - exists 24%R. repeat split; intros; try reflexivity; try discriminate; lra.
  - exists 0%R. repeat split; intros; try reflexivity; try discriminate; lra.
  - exists h. repeat split; intros; try reflexivity; try discriminate; lra.
Qed.

Lemma generate_lookup_table_rows_consistent_witness :
  (1 <= 2023 <= 9998)%Z /\ (Z.to_nat (days_in_year 2023) < 366)%nat /\
  exists rows : list table_row,
    generate_lookup_table 366 70 2023
    = (Returned tt, header :: map DataLine rows) /\
    forall r : table_row,
      In r rows ->
      (1 <= row_doy r <= 366)%Z /\
      (-23.43 < row_declination_deg r < 23.46)%R /\
      exists h : R,
        row_daylight_hours r = Finite h /\
        (0 <= h <= 24)%R /\
        (h = 24%R <-> row_condition r = PolarDay) /\
        (h = 0%R <-> row_condition r = PolarNight).
Proof.
  split; [lia |]. split; [vm_compute; lia |].
  apply (generate_lookup_table_rows_consistent 366 70 2023); [lia | vm_compute; lia].
Defined.

Section PolarRows.

Open Scope R_scope.

Lemma declination_degrees_range (d : date) (delta : R) :
  valid_date d -> solar_declination_rad d = Returned delta ->
  -23.43 < rad2deg delta < 23.46.
Proof.
  intros V E. destruct (declination_of_date d V) as (delta' & E' & Rg & _).
  rewrite E in E'. injection E' as <-.
  pose proof PI_lower as PL. pose proof PI_upper as PU.
  unfold rad2deg.
  replace (delta * (180 / PI)) with (180 * delta / PI) by (field; lra).
  split; (apply Rmult_lt_reg_r with PI; [lra |]);
    replace (180 * delta / PI * PI) with (180 * delta) by (field; lra); lra.
Qed.

Lemma mid_latitude_normal (lat_deg : R) (d : date) (h : npfloat) (k : condition) :
  Rabs lat_deg <= 65.7 -> valid_date d ->
  calculate_daylight lat_deg d = Returned (h, k) -> k = NormalDay.
Proof.
  intros A V Q. apply Rabs_le_both in A.
  destruct (polar_degrees lat_deg d ltac:(lra) V)
    as (delta & h' & k' & E & Q' & K1 & K2 & _).
  rewrite Q in Q'. injection Q' as -> ->.
  pose proof (declination_degrees_range d delta V E) as Dg.
  destruct k'; [reflexivity | |].
  - assert (T : PolarDay = PolarDay) by reflexivity. apply K1 in T.
    exfalso. revert T. unfold Rabs. destruct (Rcase_abs _); lra.
  - assert (T : PolarNight = PolarNight) by reflexivity. apply K2 in T.
    exfalso. revert T. unfold Rabs. destruct (Rcase_abs _); lra.
Qed.

End PolarRows.

(** X17: the table and the polar circles.  For a latitude of at most 65.7
    degrees in absolute value every row of the table is a Normal Day; for a
    latitude from 67.41 degrees north up to, not including, the pole the
    row of day 173 is a Polar Day of 24 hours and the row of day 356 a
    Polar Night of 0 hours. *)
Theorem generate_lookup_table_polar_rows (fuel : nat) (lat_deg : R) (y : Z) :
  (1 <= y <= 9998)%Z -> (Z.to_nat (days_in_year y) < fuel)%nat ->
  exists rows : list table_row,
    generate_lookup_table fuel lat_deg y
    = (Returned tt, header :: map DataLine rows) /\
    ((Rabs lat_deg <= 65.7)%R ->
     forall r : table_row, In r rows -> row_condition r = NormalDay) /\
    ((67.41 <= lat_deg < 90)%R ->
     exists r1 r2 : table_row,
       nth_error rows 172 = Some r1 /\ row_doy r1 = 173%Z /\
       row_daylight_hours r1 = Finite 24 /\ row_condition r1 = PolarDay /\
       nth_error rows 355 = Some r2 /\ row_doy r2 = 356%Z /\
       row_daylight_hours r2 = Finite 0 /\ row_condition r2 = PolarNight).
Proof.
  intros Hy F.
  destruct (generate_lookup_table_days fuel lat_deg y Hy F) as (rows & E & Ln & P).
  exists rows. split; [exact E |]. split.
  - intros A r I. apply In_nth_error in I. destruct I as (i & I).
    destruct (P i r I) as (V & _ & _ & _ & Q & _).
    apply (mid_latitude_normal lat_deg _ _ _ A V Q).
  - intros L.
    assert (N : (365 <= days_in_year y)%Z)
      by (unfold days_in_year; destruct (is_leap y); lia).
    destruct (rows_lookup rows 172%nat ltac:(lia)) as (r1 & I1).
    destruct (rows_lookup rows 355%nat ltac:(lia)) as (r2 & I2).
    destruct (P _ _ I1) as (V1 & _ & Y1 & D1 & Q1 & _).
    destruct (P _ _ I2) as (V2 & _ & Y2 & D2 & Q2 & _).
    rewrite (day_of_year_yday _ V1) in D1. injection D1 as D1.
    rewrite (day_of_year_yday _ V2) in D2. injection D2 as D2.
    cbn in Y1, Y2.
    assert (S1 : calculate_daylight lat_deg (row_date r1)
                 = Returned (Finite 24, PolarDay)).
    { destruct (polar_degrees lat_deg _ ltac:(lra) V1)
        as (delta & h & k & Sd & Q & K1 & _ & H1 & _).
      rewrite (solar_declination_rad_yday _ V1), Y1 in Sd. injection Sd as Sd.
      destruct declination_degrees_solstices as [A _]. rewrite Sd in A.
      assert (C : k = PolarDay) by (apply K1; rewrite Rabs_pos_eq; lra).
      rewrite Q, (H1 C), C. reflexivity. }
    assert (S2 : calculate_daylight lat_deg (row_date r2)
                 = Returned (Finite 0, PolarNight)).
    { destruct (polar_degrees lat_deg _ ltac:(lra) V2)
        as (delta & h & k & Sd & Q & _ & K2 & _ & H2 & _).
      rewrite (solar_declination_rad_yday _ V2), Y2 in Sd. injection Sd as Sd.
      destruct declination_degrees_solstices as [_ B]. rewrite Sd in B.
      assert (C : k = PolarNight) by (apply K2; rewrite Rabs_pos_eq; lra).
      rewrite Q, (H2 C), C. reflexivity. }
    rewrite Q1 in S1. injection S1 as H1 C1.
    rewrite Q2 in S2. injection S2 as H2 C2.
    exists r1, r2. repeat split; try assumption; congruence.
Qed.

Lemma generate_lookup_table_polar_rows_witness :
  (1 <= 2023 <= 9998)%Z /\ (Z.to_nat (days_in_year 2023) < 366)%nat /\
  exists rows : list table_row,
    generate_lookup_table 366 70 2023
    = (Returned tt, header :: map DataLine rows) /\
    ((Rabs 70 <= 65.7)%R ->
     forall r : table_row, In r rows -> row_condition r = NormalDay) /\
    ((67.41 <= 70 < 90)%R ->
     exists r1 r2 : table_row,
       nth_error rows 172 = Some r1 /\ row_doy r1 = 173%Z /\
       row_daylight_hours r1 = Finite 24 /\ row_condition r1 = PolarDay /\
       nth_error rows 355 = Some r2 /\ row_doy r2 = 356%Z /\
       row_daylight_hours r2 = Finite 0 /\ row_condition r2 = PolarNight).
Proof.
  split; [lia |]. split; [vm_compute; lia |].
  apply (generate_lookup_table_polar_rows 366 70 2023); [lia | vm_compute; lia].
Defined.
